(** * The sleuthkit VFS handler (client/vfs_handlers/sleuthkit.py)

    A shallow embedding of the [TSKFile] handler: its constructor, [Open],
    [Read], [ListFiles], [MakeStatResponse] and the device cache, with the
    properties of the handler proved over the embedding. *)

From Stdlib Require Import ZArith String List Lia.
From Stdlib.Strings Require Import Byte.
From stdpp Require Import base option list strings pretty gmap.

Local Open Scope Z_scope.
Local Set Warnings "-register-all".

(** ** Python exceptions and results *)

Inductive exn : Type :=
| IOError (msg : string)
| RuntimeError (msg : string)
| AttributeError
| KeyError
| IndexError.

Inductive result (A : Type) : Type :=
| Ok (a : A)
| Raise (e : exn).
Arguments Ok {A} a.
Arguments Raise {A} e.

Definition is_raise {A} (r : result A) : bool :=
  match r with Raise _ => true | Ok _ => false end.

(** A state-and-exception monad: a Python statement sequence transforms a
    state and either produces a value or raises, keeping the state reached. *)
Definition M (St A : Type) : Type := St -> result A * St.

Definition ret {St A} (a : A) : M St A := fun s => (Ok a, s).
Definition raise {St A} (e : exn) : M St A := fun s => (Raise e, s).
Definition bind {St A B} (m : M St A) (k : A -> M St B) : M St B :=
  fun s => match m s with
           | (Ok a, s') => k a s'
           | (Raise e, s') => (Raise e, s')
           end.
Definition lift {St A} (r : result A) : M St A := fun s => (r, s).
Definition gets {St A} (f : St -> A) : M St A := fun s => (Ok (f s), s).
Definition modify {St} (f : St -> St) : M St unit := fun s => (Ok tt, f s).

Declare Scope py_scope.
Delimit Scope py_scope with py.
Notation "x <- m ;; k" := (bind m (fun x => k))
  (at level 100, m at next level, right associativity) : py_scope.
Notation "m ;;; k" := (bind m (fun _ => k))
  (at level 100, right associativity) : py_scope.

(** [try: body except <handled>: handler]. *)
Definition try_except {St A} (body : M St A) (handles : exn -> bool)
    (handler : exn -> M St A) : M St A :=
  fun s => match body s with
           | (Ok a, s') => (Ok a, s')
           | (Raise e, s') => if handles e then handler e s' else (Raise e, s')
           end.

Definition is_AttributeError (e : exn) : bool :=
  match e with AttributeError => true | _ => false end.
Definition is_RuntimeError (e : exn) : bool :=
  match e with RuntimeError _ => true | _ => false end.
Definition is_KeyError (e : exn) : bool :=
  match e with KeyError => true | _ => false end.

(** [for x in l: body]. *)
Fixpoint for_each {St A} (l : list A) (body : A -> M St unit) : M St unit :=
  match l with
  | [] => ret tt
  | x :: l' => bind (body x) (fun _ => for_each l' body)
  end.

(** ** Constants of [stat] and [pytsk3] *)

Module stat.
Definition S_IFIFO : Z := 0x1000.
Definition S_IFCHR : Z := 0x2000.
Definition S_IFDIR : Z := 0x4000.
Definition S_IFBLK : Z := 0x6000.
Definition S_IFREG : Z := 0x8000.
Definition S_IFLNK : Z := 0xA000.
Definition S_IFSOCK : Z := 0xC000.
End stat.

(** The values of the libtsk enumerations (tsk_fs.h) that [pytsk3] exports
    and the handler uses. *)
Module pytsk3.
Definition TSK_FS_NAME_TYPE_UNDEF : Z := 0.
Definition TSK_FS_NAME_TYPE_FIFO : Z := 1.
Definition TSK_FS_NAME_TYPE_CHR : Z := 2.
Definition TSK_FS_NAME_TYPE_DIR : Z := 3.
Definition TSK_FS_NAME_TYPE_BLK : Z := 4.
Definition TSK_FS_NAME_TYPE_REG : Z := 5.
Definition TSK_FS_NAME_TYPE_LNK : Z := 6.
Definition TSK_FS_NAME_TYPE_SOCK : Z := 7.

Definition TSK_FS_META_TYPE_REG : Z := 1.
Definition TSK_FS_META_TYPE_DIR : Z := 2.
Definition TSK_FS_META_TYPE_FIFO : Z := 3.
Definition TSK_FS_META_TYPE_CHR : Z := 4.
Definition TSK_FS_META_TYPE_BLK : Z := 5.
Definition TSK_FS_META_TYPE_LNK : Z := 6.
Definition TSK_FS_META_TYPE_SOCK : Z := 8.

Definition TSK_FS_ATTR_TYPE_DEFAULT : Z := 0x01.
Definition TSK_FS_ATTR_TYPE_NTFS_DATA : Z := 0x80.
End pytsk3.

(** ** Data model *)

(** The backend tag and the case mode of a component
    ([jobs_pb2.Path.PathType], [jobs_pb2.Path.Options]). *)
Inductive PathType : Type := UNSET | OS | TSK | REGISTRY | MEMORY.
Inductive PathOptions : Type := CASE_INSENSITIVE | CASE_LITERAL.

(** Modelled from the spec: [jobs_pb2.Path] (grr/proto/jobs.proto), one
    component of an address, "{backend_tag, path, path_case_mode, inode?,
    attribute_type?, attribute_id?}".  [inode] is [None] when the field is
    not set ([HasField] is false), and reading an unset inode gives 0;
    [ntfs_type] and [ntfs_id] hold the value a read gives. *)
Record Path : Type := mkPath {
  pathtype : PathType;
  path : string;
  path_options : PathOptions;
  inode : option Z;
  ntfs_type : Z;
  ntfs_id : Z
}.

Definition HasField_inode (c : Path) : bool :=
  match inode c with Some _ => true | None => false end.
Definition get_inode (c : Path) : Z := default 0 (inode c).

Definition set_path (p : string) (c : Path) : Path :=
  mkPath (pathtype c) p (path_options c) (inode c) (ntfs_type c) (ntfs_id c).
Definition set_path_options (o : PathOptions) (c : Path) : Path :=
  mkPath (pathtype c) (path c) o (inode c) (ntfs_type c) (ntfs_id c).
Definition set_inode (i : Z) (c : Path) : Path :=
  mkPath (pathtype c) (path c) (path_options c) (Some i) (ntfs_type c) (ntfs_id c).
Definition set_ntfs_type (t : Z) (c : Path) : Path :=
  mkPath (pathtype c) (path c) (path_options c) (inode c) t (ntfs_id c).
Definition set_ntfs_id (i : Z) (c : Path) : Path :=
  mkPath (pathtype c) (path c) (path_options c) (inode c) (ntfs_type c) i.

(** Modelled from the spec: [utils.Pathspec], the address, "an ordered
    sequence of components" with [Append], [Pop], [Insert], [Copy] and the
    [last] component; the class itself is defined in grr/lib/utils.py. *)
Module Pathspec.
Definition t : Type := list Path.

Definition Copy (ps : t) : t := ps.
Definition Append (c : Path) (ps : t) : t := ps ++ [c].
(** [Pop(-1)] removes the last component; on an empty sequence it raises. *)
Definition Pop_last (ps : t) : result t :=
  match ps with
  | [] => Raise IndexError
  | _ => Ok (removelast ps)
  end.
Definition Insert0 (cs : list Path) (ps : t) : t := cs ++ ps.
(** [ps.last]; an empty sequence has no last component. *)
Fixpoint last (ps : t) : result Path :=
  match ps with
  | [] => Raise IndexError
  | [c] => Ok c
  | _ :: rest => last rest
  end.
(** [ps.last.<field> = v]: an update of the last component in place. *)
Definition update_last (f : Path -> Path) (ps : t) : result t :=
  match last ps with
  | Ok c => Ok (removelast ps ++ [f c])
  | Raise e => Raise e
  end.
End Pathspec.

(** The objects [pytsk3] hands out.  A member that can be missing is an
    [option]; the eight scalar fields of the metadata block are read with
    [getattr], which raises [AttributeError] for a missing one. *)
Record TSK_FS_NAME : Type := mkName {
  name_name : string;
  name_type : Z
}.

Inductive meta_field : Type :=
| f_mode | f_nlink | f_uid | f_gid | f_size | f_atime | f_mtime | f_ctime.

Record TSK_FS_META : Type := mkMeta {
  meta_addr : Z;
  meta_type : Z;
  meta_mode : option Z;
  meta_nlink : option Z;
  meta_uid : option Z;
  meta_gid : option Z;
  meta_size : option Z;
  meta_atime : option Z;
  meta_mtime : option Z;
  meta_ctime : option Z
}.

Record TSK_FS_ATTR : Type := mkAttr {
  attr_type : Z;
  attr_id : Z;
  attr_name : option string;
  attr_size : Z
}.

(** A [pytsk3.File]: [info.name], [info.meta], the attributes an iteration
    over the file gives, the children [as_directory()] gives, and
    [read_random(offset, length, type, id)]. *)
Inductive File : Type := mkFile {
  info_name : option TSK_FS_NAME;
  info_meta : option TSK_FS_META;
  attributes : list TSK_FS_ATTR;
  as_directory : result (list File);
  read_random : Z -> Z -> Z -> Z -> result (list byte)
}.

(** A [pytsk3.FS_Info]: a parsed filesystem. *)
Record FS : Type := mkFS {
  fs_open : string -> result File;
  fs_open_meta : Z -> result File
}.

(** Modelled from the spec: [jobs_pb2.StatResponse] (grr/proto/jobs.proto),
    the Stat Record "{st_ino, st_mode, st_nlink, st_uid, st_gid, st_size,
    st_atime, st_mtime, st_ctime, pathspec}"; a fresh message has every field
    at zero. *)
Record StatResponse : Type := mkStat {
  st_ino : Z;
  st_mode : Z;
  st_nlink : Z;
  st_uid : Z;
  st_gid : Z;
  st_size : Z;
  st_atime : Z;
  st_mtime : Z;
  st_ctime : Z;
  st_pathspec : Pathspec.t
}.

Definition StatResponse_new : StatResponse := mkStat 0 0 0 0 0 0 0 0 0 [].

(** ** Handlers *)

(** [MyImgInfo] wraps the raw device handle; [CachedFilesystem] is the
    container kept in the device cache.  Both are parameterised by the type
    of handlers, which is defined below. *)
Record MyImgInfo_ (H : Type) : Type := mkImg { img_fd : H }.
Arguments mkImg {H} _.
Arguments img_fd {H} _.

Definition get_size {H} (_ : MyImgInfo_ H) : Z := 1000000000000.

Record CachedFilesystem_ (H : Type) : Type := mkCached {
  fs : FS;
  img : MyImgInfo_ H
}.
Arguments mkCached {H} _ _.
Arguments fs {H} _.
Arguments img {H} _.

(** A handler of another driver, as far as this driver looks at it. *)
Record OtherHandler : Type := mkOther {
  o_pathspec : Pathspec.t;
  o_path : string;
  o_image_offset : option Z;
  o_IsDirectory : bool
}.

(** The attributes of a [TSKFile] object.  [fd] and [filesystem] do not exist
    before the constructor assigns them; [vfs_path] is the [path] attribute
    every handler inherits. *)
Record TSKFile_ (H : Type) : Type := mkTSKFile {
  base_fd : option H;
  pathspec : Pathspec.t;
  tsk_raw_device : option H;
  tsk_path : string;
  filesystem : option (CachedFilesystem_ H);
  fd : option File;
  size : Z;
  offset : Z;
  vfs_path : string
}.
Arguments mkTSKFile {H} _ _ _ _ _ _ _ _ _.
Arguments base_fd {H} _.
Arguments pathspec {H} _.
Arguments tsk_raw_device {H} _.
Arguments tsk_path {H} _.
Arguments filesystem {H} _.
Arguments fd {H} _.
Arguments size {H} _.
Arguments offset {H} _.
Arguments vfs_path {H} _.

Inductive VFSHandler : Type :=
| TSKHandler (h : TSKFile_ VFSHandler)
| FileHandler (o : OtherHandler).

Definition TSKFile : Type := TSKFile_ VFSHandler.
Definition MyImgInfo : Type := MyImgInfo_ VFSHandler.
Definition CachedFilesystem : Type := CachedFilesystem_ VFSHandler.

Definition set_base_fd (v : option VFSHandler) (h : TSKFile) : TSKFile :=
  mkTSKFile v (pathspec h) (tsk_raw_device h) (tsk_path h) (filesystem h)
            (fd h) (size h) (offset h) (vfs_path h).
Definition set_pathspec (v : Pathspec.t) (h : TSKFile) : TSKFile :=
  mkTSKFile (base_fd h) v (tsk_raw_device h) (tsk_path h) (filesystem h)
            (fd h) (size h) (offset h) (vfs_path h).
Definition set_tsk_raw_device (v : option VFSHandler) (h : TSKFile) : TSKFile :=
  mkTSKFile (base_fd h) (pathspec h) v (tsk_path h) (filesystem h)
            (fd h) (size h) (offset h) (vfs_path h).
Definition set_tsk_path (v : string) (h : TSKFile) : TSKFile :=
  mkTSKFile (base_fd h) (pathspec h) (tsk_raw_device h) v (filesystem h)
            (fd h) (size h) (offset h) (vfs_path h).
Definition set_filesystem (v : CachedFilesystem) (h : TSKFile) : TSKFile :=
  mkTSKFile (base_fd h) (pathspec h) (tsk_raw_device h) (tsk_path h) (Some v)
            (fd h) (size h) (offset h) (vfs_path h).
Definition set_fd (v : File) (h : TSKFile) : TSKFile :=
  mkTSKFile (base_fd h) (pathspec h) (tsk_raw_device h) (tsk_path h)
            (filesystem h) (Some v) (size h) (offset h) (vfs_path h).
Definition set_size (v : Z) (h : TSKFile) : TSKFile :=
  mkTSKFile (base_fd h) (pathspec h) (tsk_raw_device h) (tsk_path h)
            (filesystem h) (fd h) v (offset h) (vfs_path h).
Definition set_offset (v : Z) (h : TSKFile) : TSKFile :=
  mkTSKFile (base_fd h) (pathspec h) (tsk_raw_device h) (tsk_path h)
            (filesystem h) (fd h) (size h) v (vfs_path h).

(** An object for which [__init__] has not run yet: the class attributes. *)
Definition TSKFile_new : TSKFile :=
  mkTSKFile None [] None "" None None 0 0 "/".

(** Calls into [pytsk3] and into the raw-device resolver, in program order. *)
Inductive io_event : Type :=
| EvGetRawDevice (p : string)
| EvFS_Info (device : string) (image_offset : Z)
| EvOpen (p : string)
| EvOpenMeta (i : Z)
| EvAsDirectory
| EvReadRandom (off len type id : Z).

(** Modelled from the spec: [utils.TimeBasedCache] (grr/lib/utils.py), the
    device cache: "[Get(deviceId) -> Session | NotFound], [Put(deviceId,
    session)].  Entries expire after a fixed time-to-live from insertion (not
    from last access)"; "eviction is lazy (checked on Get)". *)
Module TimeBasedCache.
Section Cache.
Context {V : Type}.

Definition t : Type := gmap string (Z * V).

Definition Get (max_age now : Z) (key : string) (c : gmap string (Z * V))
    : result V * gmap string (Z * V) :=
  match c !! key with
  | Some (stamp, v) =>
      if now - stamp <? max_age then (Ok v, c)
      else (Raise KeyError, delete key c)
  | None => (Raise KeyError, c)
  end.

Definition Put (now : Z) (key : string) (v : V) (c : gmap string (Z * V))
    : gmap string (Z * V) :=
  <[key := (now, v)]> c.
End Cache.
End TimeBasedCache.

(** What the process holds besides the handler objects: the module-level
    [DEVICE_CACHE], the wall clock the cache reads, and the trace of calls. *)
Record Runtime : Type := mkRuntime {
  DEVICE_CACHE : gmap string (Z * CachedFilesystem);
  clock : Z;
  io_trace : list io_event
}.

Definition log (e : io_event) (r : Runtime) : Runtime :=
  mkRuntime (DEVICE_CACHE r) (clock r) (io_trace r ++ [e]).
Definition set_cache (c : gmap string (Z * CachedFilesystem)) (r : Runtime)
    : Runtime :=
  mkRuntime c (clock r) (io_trace r).

(** A method runs on its object and the runtime. *)
Record State : Type := mkState {
  self : TSKFile;
  runtime : Runtime
}.

Definition on_self (f : TSKFile -> TSKFile) (s : State) : State :=
  mkState (f (self s)) (runtime s).
Definition on_runtime (f : Runtime -> Runtime) (s : State) : State :=
  mkState (self s) (f (runtime s)).

(** The collaborators the module imports: [utils.JoinPath],
    [client_utils.GetRawDevice], [client_utils.LocalPathToCanonicalPath],
    [pytsk3.FS_Info] and the time-to-live of the cache. *)
Class Collaborators : Type := {
  JoinPath : string -> string -> string;
  GetRawDevice : string -> Path * string;
  LocalPathToCanonicalPath : string -> string;
  FS_Info : MyImgInfo -> Z -> result FS;
  max_age : Z
}.

(** Sequencing of computations that only produce a value or raise. *)
Definition rbind {A B} (r : result A) (k : A -> result B) : result B :=
  match r with
  | Ok a => k a
  | Raise e => Raise e
  end.
Notation "x <~ r ;; k" := (rbind r (fun x => k))
  (at level 100, r at next level, right associativity) : py_scope.

(** Truth value of a Python string that may also be [None] or [False]. *)
Definition truthy (s : option string) : bool :=
  match s with
  | Some EmptyString => false
  | Some _ => true
  | None => false
  end.

(** ** The handler *)

Definition handler_pathspec (b : VFSHandler) : Pathspec.t :=
  match b with
  | TSKHandler h => pathspec h
  | FileHandler o => o_pathspec o
  end.

Definition handler_path (b : VFSHandler) : string :=
  match b with
  | TSKHandler h => vfs_path h
  | FileHandler o => o_path o
  end.

(** [hasattr(b, "image_offset")] and its value. *)
Definition handler_image_offset (b : VFSHandler) : option Z :=
  match b with
  | TSKHandler _ => None
  | FileHandler o => o_image_offset o
  end.

Definition isinstance_TSKFile (b : VFSHandler) : bool :=
  match b with
  | TSKHandler _ => true
  | FileHandler _ => false
  end.

(** [self.fd.info.meta.type]: each step of the access can fail. *)
Definition fd_of (h : TSKFile) : result File :=
  match fd h with
  | Some f => Ok f
  | None => Raise AttributeError
  end.

Definition meta_of (f : File) : result TSK_FS_META :=
  match info_meta f with
  | Some m => Ok m
  | None => Raise AttributeError
  end.

Definition name_of (f : File) : result TSK_FS_NAME :=
  match info_name f with
  | Some n => Ok n
  | None => Raise AttributeError
  end.

Definition IsDirectory (h : TSKFile) : result bool :=
  (f <~ fd_of h ;;
   m <~ meta_of f ;;
   Ok (meta_type m =? pytsk3.TSK_FS_META_TYPE_DIR))%py.

Definition IsFile (h : TSKFile) : result bool :=
  (f <~ fd_of h ;;
   m <~ meta_of f ;;
   Ok (meta_type m =? pytsk3.TSK_FS_META_TYPE_REG))%py.

Definition handler_IsDirectory (b : VFSHandler) : result bool :=
  match b with
  | TSKHandler h => IsDirectory h
  | FileHandler o => Ok (o_IsDirectory o)
  end.

Definition handler_tsk_raw_device (b : VFSHandler) : option VFSHandler :=
  match b with
  | TSKHandler h => tsk_raw_device h
  | FileHandler _ => None
  end.

(** [GetAttribute]: the first attribute with this type and id, else [None]. *)
Fixpoint GetAttribute_loop (attrs : list TSK_FS_ATTR) (type id : Z)
    : option TSK_FS_ATTR :=
  match attrs with
  | [] => None
  | attribute :: rest =>
      if (attr_type attribute =? type) && (attr_id attribute =? id)
      then Some attribute
      else GetAttribute_loop rest type id
  end.

Definition GetAttribute (h : TSKFile) (type id : Z)
    : result (option TSK_FS_ATTR) :=
  (f <~ fd_of h ;; Ok (GetAttribute_loop (attributes f) type id))%py.

(** The two tables that encode TSK types onto [st_mode]. *)
Definition FILE_TYPE_LOOKUP : gmap Z Z :=
  list_to_map
    [ (pytsk3.TSK_FS_NAME_TYPE_UNDEF, 0);
      (pytsk3.TSK_FS_NAME_TYPE_FIFO, stat.S_IFIFO);
      (pytsk3.TSK_FS_NAME_TYPE_CHR, stat.S_IFCHR);
      (pytsk3.TSK_FS_NAME_TYPE_DIR, stat.S_IFDIR);
      (pytsk3.TSK_FS_NAME_TYPE_BLK, stat.S_IFBLK);
      (pytsk3.TSK_FS_NAME_TYPE_REG, stat.S_IFREG);
      (pytsk3.TSK_FS_NAME_TYPE_LNK, stat.S_IFLNK);
      (pytsk3.TSK_FS_NAME_TYPE_SOCK, stat.S_IFSOCK) ].

Definition META_TYPE_LOOKUP : gmap Z Z :=
  list_to_map
    [ (pytsk3.TSK_FS_META_TYPE_BLK, 0);
      (pytsk3.TSK_FS_META_TYPE_CHR, stat.S_IFCHR);
      (pytsk3.TSK_FS_META_TYPE_DIR, stat.S_IFDIR);
      (pytsk3.TSK_FS_META_TYPE_FIFO, stat.S_IFIFO);
      (pytsk3.TSK_FS_META_TYPE_LNK, stat.S_IFLNK);
      (pytsk3.TSK_FS_META_TYPE_REG, stat.S_IFREG);
      (pytsk3.TSK_FS_META_TYPE_SOCK, stat.S_IFSOCK) ].

(** [d.get(key, 0)]. *)
Definition dict_get (d : gmap Z Z) (key : Z) : Z := default 0 (d !! key).

(** Files we won't return in directories. *)
Definition BLACKLIST_FILES : list string := ["$OrphanFiles"].

(** [getattr(meta, attribute)] and [setattr(response, "st_%s" % attribute,
    value)] for the names in "mode nlink uid gid size atime mtime ctime". *)
Definition stat_fields : list meta_field :=
  [f_mode; f_nlink; f_uid; f_gid; f_size; f_atime; f_mtime; f_ctime].

Definition getattr_meta (meta : TSK_FS_META) (attribute : meta_field)
    : result Z :=
  let v := match attribute with
           | f_mode => meta_mode meta
           | f_nlink => meta_nlink meta
           | f_uid => meta_uid meta
           | f_gid => meta_gid meta
           | f_size => meta_size meta
           | f_atime => meta_atime meta
           | f_mtime => meta_mtime meta
           | f_ctime => meta_ctime meta
           end in
  match v with
  | Some value => Ok value
  | None => Raise AttributeError
  end.

Definition st_field (attribute : meta_field) (r : StatResponse) : Z :=
  match attribute with
  | f_mode => st_mode r
  | f_nlink => st_nlink r
  | f_uid => st_uid r
  | f_gid => st_gid r
  | f_size => st_size r
  | f_atime => st_atime r
  | f_mtime => st_mtime r
  | f_ctime => st_ctime r
  end.

Definition setattr_st (attribute : meta_field) (v : Z) (r : StatResponse)
    : StatResponse :=
  match attribute with
  | f_mode => mkStat (st_ino r) v (st_nlink r) (st_uid r) (st_gid r)
                (st_size r) (st_atime r) (st_mtime r) (st_ctime r) (st_pathspec r)
  | f_nlink => mkStat (st_ino r) (st_mode r) v (st_uid r) (st_gid r)
                (st_size r) (st_atime r) (st_mtime r) (st_ctime r) (st_pathspec r)
  | f_uid => mkStat (st_ino r) (st_mode r) (st_nlink r) v (st_gid r)
                (st_size r) (st_atime r) (st_mtime r) (st_ctime r) (st_pathspec r)
  | f_gid => mkStat (st_ino r) (st_mode r) (st_nlink r) (st_uid r) v
                (st_size r) (st_atime r) (st_mtime r) (st_ctime r) (st_pathspec r)
  | f_size => mkStat (st_ino r) (st_mode r) (st_nlink r) (st_uid r) (st_gid r)
                v (st_atime r) (st_mtime r) (st_ctime r) (st_pathspec r)
  | f_atime => mkStat (st_ino r) (st_mode r) (st_nlink r) (st_uid r) (st_gid r)
                (st_size r) v (st_mtime r) (st_ctime r) (st_pathspec r)
  | f_mtime => mkStat (st_ino r) (st_mode r) (st_nlink r) (st_uid r) (st_gid r)
                (st_size r) (st_atime r) v (st_ctime r) (st_pathspec r)
  | f_ctime => mkStat (st_ino r) (st_mode r) (st_nlink r) (st_uid r) (st_gid r)
                (st_size r) (st_atime r) (st_mtime r) v (st_pathspec r)
  end.

Definition set_st_ino (v : Z) (r : StatResponse) : StatResponse :=
  mkStat v (st_mode r) (st_nlink r) (st_uid r) (st_gid r)
         (st_size r) (st_atime r) (st_mtime r) (st_ctime r) (st_pathspec r).

Definition set_st_pathspec (v : Pathspec.t) (r : StatResponse) : StatResponse :=
  mkStat (st_ino r) (st_mode r) (st_nlink r) (st_uid r) (st_gid r)
         (st_size r) (st_atime r) (st_mtime r) (st_ctime r) v.

(** [response.st_mode |= bits]. *)
Definition or_st_mode (bits : Z) (r : StatResponse) : StatResponse :=
  setattr_st f_mode (Z.lor (st_mode r) bits) r.

(** The value stored for a raw metadata value:
    [if value < 0: value &= 0xFFFFFFFF]. *)
Definition unsigned32_if_negative (value : Z) : Z :=
  if value <? 0 then Z.land value 0xFFFFFFFF else value.

(** One turn of the loop over the field names, with its [try]/[except]. *)
Definition copy_field (meta : TSK_FS_META) (attribute : meta_field)
    (response : StatResponse) : result StatResponse :=
  match getattr_meta meta attribute with
  | Ok value =>
      Ok (setattr_st attribute (unsigned32_if_negative value) response)
  | Raise AttributeError => Ok response
  | Raise e => Raise e
  end.

Fixpoint copy_fields (meta : TSK_FS_META) (names : list meta_field)
    (response : StatResponse) : result StatResponse :=
  match names with
  | [] => Ok response
  | attribute :: rest =>
      match copy_field meta attribute response with
      | Ok response' => copy_fields meta rest response'
      | Raise e => Raise e
      end
  end.

Section Handler.
Context `{Collaborators}.

(** [MakeStatResponse(tsk_file, tsk_attribute=None, append_name=False)]. *)
Definition MakeStatResponse (h : TSKFile) (tsk_file : File)
    (tsk_attribute : option TSK_FS_ATTR) (append_name : option string)
    : result StatResponse :=
  (let response := StatResponse_new in
   let meta := info_meta tsk_file in
   response <~ match meta with
               | Some m =>
                   copy_fields m stat_fields (set_st_ino (meta_addr m) response)
               | None => Ok response
               end ;;
   let name := info_name tsk_file in
   let child_pathspec := Pathspec.Copy (pathspec h) in
   child_pathspec <~
     (if truthy append_name
      then Pathspec.update_last
             (fun c => set_path (JoinPath (path c) (default "" append_name)) c)
             child_pathspec
      else Ok child_pathspec) ;;
   m <~ match meta with Some m => Ok m | None => Raise AttributeError end ;;
   child_pathspec <~ Pathspec.update_last (set_inode (meta_addr m))
                       child_pathspec ;;
   child_pathspec <~
     match tsk_attribute with
     | Some a =>
         ps <~ Pathspec.update_last (set_ntfs_type (attr_type a))
                 child_pathspec ;;
         ps <~ Pathspec.update_last (set_ntfs_id (attr_id a)) ps ;;
         match attr_name a with
         | Some n =>
             Pathspec.update_last
               (fun c => set_path (path c +:+ ":" +:+ n) c) ps
         | None => Ok ps
         end
     | None => Ok child_pathspec
     end ;;
   let response :=
     match name with
     | Some n => or_st_mode (dict_get FILE_TYPE_LOOKUP (name_type n)) response
     | None => response
     end in
   let response :=
     match meta with
     | Some m => or_st_mode (dict_get META_TYPE_LOOKUP (meta_type m)) response
     | None => response
     end in
   Ok (set_st_pathspec child_pathspec response))%py.

(** [Stat()]. *)
Definition Stat (h : TSKFile) : result StatResponse :=
  (f <~ fd_of h ;; MakeStatResponse h f None None)%py.

(** *** Calls that leave the module *)

Definition call_read_random (f : File) (off len type id : Z)
    : M State (list byte) :=
  (modify (on_runtime (log (EvReadRandom off len type id))) ;;;
   lift (read_random f off len type id))%py.

Definition call_as_directory {Out} (f : File) : M (State * Out) (list File) :=
  (modify (fun st => (on_runtime (log EvAsDirectory) (fst st), snd st)) ;;;
   lift (as_directory f))%py.

Definition call_FS_Info (image : MyImgInfo) (image_offset : Z) : M State FS :=
  (modify (on_runtime
             (log (EvFS_Info (handler_path (img_fd image)) image_offset))) ;;;
   lift (FS_Info image image_offset))%py.

Definition call_open (filesystem : FS) (p : string) : M State File :=
  (modify (on_runtime (log (EvOpen p))) ;;; lift (fs_open filesystem p))%py.

Definition call_open_meta (filesystem : FS) (i : Z) : M State File :=
  (modify (on_runtime (log (EvOpenMeta i))) ;;;
   lift (fs_open_meta filesystem i))%py.

Definition cache_Get (key : string) : M State CachedFilesystem :=
  fun s =>
    let '(r, c) := TimeBasedCache.Get max_age (clock (runtime s)) key
                     (DEVICE_CACHE (runtime s)) in
    (r, on_runtime (set_cache c) s).

Definition cache_Put (key : string) (v : CachedFilesystem) : M State unit :=
  modify (on_runtime (fun r =>
    set_cache (TimeBasedCache.Put (clock r) key v (DEVICE_CACHE r)) r)).

(** *** Read *)

Definition exn_message (e : exn) : string :=
  match e with
  | IOError msg => msg
  | RuntimeError msg => msg
  | AttributeError => "AttributeError"
  | KeyError => "KeyError"
  | IndexError => "IndexError"
  end.

(** [Read(length)]. *)
Definition Read (length : Z) : M State (list byte) :=
  (h <- gets self ;;
   isfile <- lift (IsFile h) ;;
   if negb isfile then
     last <- lift (Pathspec.last (pathspec h)) ;;
     raise (IOError (path last +:+ " is not a file."))
   else
     let available := Z.min (size h - offset h) length in
     if 0 <? available then
       data <- try_except
                 (f <- lift (fd_of h) ;;
                  last <- lift (Pathspec.last (pathspec h)) ;;
                  call_read_random f (offset h) available
                    (ntfs_type last) (ntfs_id last))
                 is_RuntimeError
                 (fun e => raise (IOError (exn_message e))) ;;
       modify (on_self (set_offset (offset h + Z.of_nat (List.length data)))) ;;;
       ret data
     else ret [])%py.

(** *** ListFiles *)

Definition str_in (x : string) (l : list string) : bool :=
  existsb (String.eqb x) l.

Definition Z_in (x : Z) (l : list Z) : bool := existsb (Z.eqb x) l.

(** [ListFiles] is a generator: calling it runs nothing, and its body runs
    when the caller iterates.  The state of the body carries the responses
    yielded so far; running the body to its end gives the whole sequence and
    how the iteration stops (exhausted, or with an exception). *)
Definition yield (r : StatResponse) : M (State * list StatResponse) unit :=
  modify (fun st => (fst st, snd st ++ [r])).

Definition ListFiles_entry (h : TSKFile) (f : File)
    : M (State * list StatResponse) unit :=
  try_except
    (n <- lift (name_of f) ;;
     let name := name_name n in
     if str_in name ["."; ".."] || str_in name BLACKLIST_FILES then ret tt
     else
       r <- lift (MakeStatResponse h f None (Some name)) ;;
       yield r ;;;
       for_each (attributes f) (fun attribute =>
         if Z_in (attr_type attribute)
              [pytsk3.TSK_FS_ATTR_TYPE_NTFS_DATA; pytsk3.TSK_FS_ATTR_TYPE_DEFAULT]
         then
           if truthy (attr_name attribute) then
             r <- lift (MakeStatResponse h f (Some attribute) (Some name)) ;;
             yield r
           else ret tt
         else ret tt))%py
    is_AttributeError
    (fun _ => ret tt).

Definition ListFiles : M (State * list StatResponse) unit :=
  (h <- gets (fun st => self (fst st)) ;;
   isdir <- lift (IsDirectory h) ;;
   if isdir then
     f <- lift (fd_of h) ;;
     dir_fd <- call_as_directory f ;;
     for_each dir_fd (ListFiles_entry h)
   else
     f <- lift (fd_of h) ;;
     n <- lift (name_of f) ;;
     raise (IOError (name_name n +:+ " is not a directory")))%py.

(** Iterating [h.ListFiles()] to its end from runtime [r]: the responses
    yielded, how the iteration ended, and the runtime reached. *)
Definition run_ListFiles (h : TSKFile) (r : Runtime)
    : list StatResponse * result unit * Runtime :=
  match ListFiles (mkState h r, []) with
  | (res, (s, out)) => (out, res, runtime s)
  end.

(** [ListNames]: the names of the children, unfiltered. *)
Definition ListNames : M (State * list string) unit :=
  (h <- gets (fun st => self (fst st)) ;;
   f <- lift (fd_of h) ;;
   directory_handle <- call_as_directory f ;;
   for_each directory_handle (fun f =>
     n <- lift (name_of f) ;;
     modify (fun st => (fst st, snd st ++ [name_name n]))))%py.

(** *** The constructor *)

(** Modelled from the spec: the constructor of the generic handler
    ([vfs.VFSHandler.__init__], grr/client/vfs.py), which records the base
    and starts the address of the new handler as a copy of the address of its
    base ("the new terminal path is the join of the base's last path and the
    new component's path"; "append the new component to the address"). *)
Definition VFSHandler_init (base : option VFSHandler) : M State unit :=
  modify (on_self (fun h =>
    set_pathspec
      match base with
      | Some b => Pathspec.Copy (handler_pathspec b)
      | None => []
      end
      (set_base_fd base h))).

(** The key of the device cache: the path of the raw device, and its
    [image_offset] when it has one. *)
Definition fd_hash_of (raw : VFSHandler) : string :=
  match handler_image_offset raw with
  | Some image_offset => handler_path raw +:+ ":" +:+ pretty image_offset
  | None => handler_path raw
  end.

(** Lines 140-156: the filesystem comes from the cache, or is parsed and
    put into the cache. *)
Definition cached_filesystem (raw : VFSHandler) (fd_hash : string)
    : M State unit :=
  try_except
    (cached <- cache_Get fd_hash ;;
     modify (on_self (set_filesystem cached)))%py
    is_KeyError
    (fun _ =>
       let image := mkImg raw in
       let image_offset := default 0 (handler_image_offset raw) in
       parsed <- call_FS_Info image image_offset ;;
       let cached := mkCached parsed image in
       modify (on_self (set_filesystem cached)) ;;;
       cache_Put fd_hash cached)%py.

Definition self_pathspec_update (f : Path -> Path) : M State unit :=
  (h <- gets self ;;
   ps <- lift (Pathspec.update_last f (pathspec h)) ;;
   modify (on_self (set_pathspec ps)))%py.

Definition self_filesystem : M State FS :=
  (h <- gets self ;;
   match filesystem h with
   | Some c => ret (fs c)
   | None => raise AttributeError
   end)%py.

(** Lines 105-127: how the new handler chains onto its base.  Below a
    directory of this driver it borrows the raw device and replaces the last
    component of the address; on a file-like base it takes the base as raw
    device and appends the component; anything else is refused. *)
Definition chain_on_base (base_fd : option VFSHandler) (pathspec_arg : Path)
    : M State unit :=
  match base_fd with
  | None => raise (IOError "TSK driver must have a file base.")
  | Some base =>
      tsk_directory <- (if isinstance_TSKFile base
                        then lift (handler_IsDirectory base)
                        else ret false) ;;
      if tsk_directory : bool then
        modify (on_self (set_tsk_raw_device (handler_tsk_raw_device base))) ;;;
        h <- gets self ;;
        last <- lift (Pathspec.last (pathspec h)) ;;
        let last_path := JoinPath (path last) (path pathspec_arg) in
        ps <- lift (Pathspec.Pop_last (pathspec h)) ;;
        modify (on_self (set_pathspec (Pathspec.Append pathspec_arg ps))) ;;;
        self_pathspec_update (set_path last_path)
      else
        directory <- lift (handler_IsDirectory base) ;;
        if negb directory then
          modify (on_self (fun h =>
            set_pathspec (Pathspec.Append pathspec_arg (pathspec h))
              (set_tsk_raw_device (Some base) h)))
        else raise (IOError "Unable to parse base using Sleuthkit.")
  end%py.

(** Lines 158-172: the entry is opened by inode when the component has one,
    else by the path of the address, whose inode is then recorded. *)
Definition open_entry (pathspec_arg : Path) : M State unit :=
  (filesystem <- self_filesystem ;;
   if HasField_inode pathspec_arg then
     opened <- call_open_meta filesystem (get_inode pathspec_arg) ;;
     modify (on_self (set_fd opened)) ;;;
     h <- gets self ;;
     attribute <- lift (GetAttribute h (ntfs_type pathspec_arg)
                          (ntfs_id pathspec_arg)) ;;
     match attribute with
     | Some a => modify (on_self (set_size (attr_size a)))
     | None =>
         m <- lift (meta_of opened) ;;
         sz <- lift (getattr_meta m f_size) ;;
         modify (on_self (set_size sz))
     end
   else
     h <- gets self ;;
     last <- lift (Pathspec.last (pathspec h)) ;;
     opened <- call_open filesystem (path last) ;;
     modify (on_self (set_fd opened)) ;;;
     m <- lift (meta_of opened) ;;
     sz <- lift (getattr_meta m f_size) ;;
     modify (on_self (set_size sz)) ;;;
     self_pathspec_update (set_inode (meta_addr m)))%py.

(** [TSKFile.__init__(base_fd, pathspec)], run on a new object. *)
Definition TSKFile_init (base_fd : option VFSHandler) (pathspec_arg : Path)
    : M State unit :=
  (VFSHandler_init base_fd ;;;
   chain_on_base base_fd pathspec_arg ;;;
   h <- gets self ;;
   last <- lift (Pathspec.last (pathspec h)) ;;
   modify (on_self (set_tsk_path (path last))) ;;;
   self_pathspec_update (set_path_options CASE_LITERAL) ;;;
   h <- gets self ;;
   raw <- match tsk_raw_device h with
          | Some raw => ret raw
          | None => raise AttributeError
          end ;;
   cached_filesystem raw (fd_hash_of raw) ;;;
   open_entry pathspec_arg)%py.

(** [TSKFile(base_fd, pathspec)]: the outcome of the constructor, the object
    as the constructor left it, and the runtime. *)
Definition TSKFile_construct (base_fd : option VFSHandler) (pathspec_arg : Path)
    (r : Runtime) : result unit * TSKFile * Runtime :=
  match TSKFile_init base_fd pathspec_arg (mkState TSKFile_new r) with
  | (res, s) => (res, self s, runtime s)
  end.

(** *** Open *)

(** What [Open] returns: the base unchanged after it rewrote the address, a
    handler constructed from the component, or whatever the generic
    [vfs.VFSHandler.Open] (outside this module) makes of its arguments. *)
Inductive open_outcome : Type :=
| AddressRewritten (fd : option VFSHandler) (component : Path)
    (pathspec : Pathspec.t)
| ConstructedByInode (res : result unit) (h : TSKFile)
| GenericOpen (fd : option VFSHandler) (component : Path)
    (pathspec : Pathspec.t).

Definition is_None {A} (o : option A) : bool :=
  match o with None => true | Some _ => false end.

Definition is_TSK (t : PathType) : bool :=
  match t with TSK => true | _ => false end.

Definition canonical_component (c : Path) : Path :=
  if truthy (Some (path c)) then set_path (LocalPathToCanonicalPath (path c)) c
  else c.

(** [TSKFile.Open(fd, component, pathspec)]. *)
Definition Open (fd : option VFSHandler) (component : Path)
    (pathspec : Pathspec.t) (r : Runtime) : open_outcome * Runtime :=
  if is_None fd && is_TSK (pathtype component) then
    let '(raw_pathspec, corrected_path) := GetRawDevice (path component) in
    let r := log (EvGetRawDevice (path component)) r in
    let component := set_path corrected_path component in
    let pathspec := Pathspec.Insert0 [raw_pathspec; component] pathspec in
    let pathspec := map canonical_component pathspec in
    (AddressRewritten fd (canonical_component component) pathspec, r)
  else if negb (get_inode component =? 0) then
    let '(res, h, r) := TSKFile_construct fd component r in
    (ConstructedByInode res h, r)
  else (GenericOpen fd component pathspec, r).

End Handler.

(** * What the properties are stated with *)

Section Statements.
Context `{Collaborators}.

(** ** Responses *)

(** The value the copy loop leaves in a field whose old value is [old]. *)
Definition stored_value (meta : TSK_FS_META) (attribute : meta_field) (old : Z)
    : Z :=
  match getattr_meta meta attribute with
  | Ok raw => unsigned32_if_negative raw
  | Raise _ => old
  end.

(** The type bits the two tables contribute. *)
Definition name_type_bits (f : File) : Z :=
  match info_name f with
  | Some n => dict_get FILE_TYPE_LOOKUP (name_type n)
  | None => 0
  end.

Definition meta_type_bits (m : TSK_FS_META) : Z :=
  dict_get META_TYPE_LOOKUP (meta_type m).

(** The address part of [MakeStatResponse]: the child address built from the
    handler's own address. *)
Definition child_address (h : TSKFile) (m : TSK_FS_META)
    (tsk_attribute : option TSK_FS_ATTR) (append_name : option string)
    : result Pathspec.t :=
  (ps <~ (if truthy append_name
          then Pathspec.update_last
                 (fun c => set_path (JoinPath (path c) (default "" append_name)) c)
                 (pathspec h)
          else Ok (pathspec h)) ;;
   ps <~ Pathspec.update_last (set_inode (meta_addr m)) ps ;;
   match tsk_attribute with
   | Some a =>
       ps <~ Pathspec.update_last (set_ntfs_type (attr_type a)) ps ;;
       ps <~ Pathspec.update_last (set_ntfs_id (attr_id a)) ps ;;
       match attr_name a with
       | Some n => Pathspec.update_last (fun c => set_path (path c +:+ ":" +:+ n) c) ps
       | None => Ok ps
       end
   | None => Ok ps
   end)%py.

(** The last component of a child address, from the last component [c] of
    the handler's address. *)
Definition child_component (c : Path) (m : TSK_FS_META)
    (tsk_attribute : option TSK_FS_ATTR) (append_name : option string) : Path :=
  let c := if truthy append_name
           then set_path (JoinPath (path c) (default "" append_name)) c
           else c in
  let c := set_inode (meta_addr m) c in
  match tsk_attribute with
  | Some a =>
      let c := set_ntfs_id (attr_id a) (set_ntfs_type (attr_type a) c) in
      match attr_name a with
      | Some n => set_path (path c +:+ ":" +:+ n) c
      | None => c
      end
  | None => c
  end.

(** The response for entry [f] with metadata [m], below a handler whose
    address is [init ++ [c]]. *)
Definition response_of (init : Pathspec.t) (c : Path) (f : File)
    (m : TSK_FS_META) (tsk_attribute : option TSK_FS_ATTR)
    (append_name : option string) : StatResponse :=
  mkStat (meta_addr m)
    (Z.lor (Z.lor (stored_value m f_mode 0) (name_type_bits f))
           (meta_type_bits m))
    (stored_value m f_nlink 0) (stored_value m f_uid 0)
    (stored_value m f_gid 0) (stored_value m f_size 0)
    (stored_value m f_atime 0) (stored_value m f_mtime 0)
    (stored_value m f_ctime 0)
    (init ++ [child_component c m tsk_attribute append_name]).

(** ** The listing, stated on the entries *)





(** ** Reads *)

(** A random-access read of [len] bytes at [off] in the byte string
    [data]: what [read_random] returns on a stream that holds [data]. *)
Definition slice (data : list byte) (off len : Z) : list byte :=
  firstn (Z.to_nat len) (skipn (Z.to_nat off) data).

(** ** The constructor *)

(** The calls the constructor may make for a component: the parse of the
    device, and one lookup, by inode when the component has one and else by
    the path [looked_up]; never a resolution of the raw device. *)
Definition constructor_event (pathspec_arg : Path) (looked_up : string)
    (e : io_event) : bool :=
  match e with
  | EvFS_Info _ _ => true
  | EvOpenMeta i => HasField_inode pathspec_arg && (i =? get_inode pathspec_arg)
  | EvOpen p => negb (HasField_inode pathspec_arg) && String.eqb p looked_up
  | _ => false
  end.

(** The last component of the address once the constructor has chained the
    component onto a directory of this driver whose address ends in [c]. *)
Definition joined_component (c component : Path) : Path :=
  set_path_options CASE_LITERAL
    (set_path (JoinPath (path c) (path component)) component).

(** The address the constructor writes before it looks the entry up: below
    a directory of this driver the last component replaced, on a file-like
    base the component appended; no address for a base it refuses. *)
Definition rewritten_address (base : VFSHandler) (component : Path)
    : option Pathspec.t :=
  match base, handler_IsDirectory base with
  | TSKHandler hb, Ok true =>
      match Pathspec.last (pathspec hb) with
      | Ok c => Some (removelast (pathspec hb) ++ [joined_component c component])
      | Raise _ => None
      end
  | _, Ok false =>
      Some (handler_pathspec base ++ [set_path_options CASE_LITERAL component])
  | _, _ => None
  end.

(** The part of the constructor that follows the rewrite of the address
    (lines 136-172). *)
Definition after_rewrite (pathspec_arg : Path) : M State unit :=
  (h <- gets self ;;
   raw <- match tsk_raw_device h with
          | Some raw => ret raw
          | None => raise AttributeError
          end ;;
   cached_filesystem raw (fd_hash_of raw) ;;;
   open_entry pathspec_arg)%py.

(** ** The cache block, step by step *)

(** Where a thread stands in the cache block of the constructor (lines
    140-156): before the lookup, before the parse (the lookup raised
    [KeyError]), before the insert, or through with it. *)
Inductive open_pc : Type :=
| AtGet
| AtParse
| AtPut (parsed : CachedFilesystem)
| Finished (res : result CachedFilesystem).



(** One step of a thread in the cache block: [DEVICE_CACHE.Get], or
    [pytsk3.FS_Info], or [DEVICE_CACHE.Put]; other threads may run between
    two steps. *)
Definition open_step (raw : VFSHandler) (pc : open_pc) (r : Runtime)
    : open_pc * Runtime :=
  match pc with
  | AtGet =>
      match TimeBasedCache.Get max_age (clock r) (fd_hash_of raw)
              (DEVICE_CACHE r) with
      | (Ok cached, c) => (Finished (Ok cached), set_cache c r)
      | (Raise KeyError, c) => (AtParse, set_cache c r)
      | (Raise e, c) => (Finished (Raise e), set_cache c r)
      end
  | AtParse =>
      let image := mkImg raw in
      let image_offset := default 0 (handler_image_offset raw) in
      let r := log (EvFS_Info (handler_path raw) image_offset) r in
      match FS_Info image image_offset with
      | Ok parsed => (AtPut (mkCached parsed image), r)
      | Raise e => (Finished (Raise e), r)
      end
  | AtPut cached =>
      (Finished (Ok cached),
       set_cache (TimeBasedCache.Put (clock r) (fd_hash_of raw) cached
                    (DEVICE_CACHE r)) r)
  | Finished res => (Finished res, r)
  end.



End Statements.

(** ** A small image, for the examples

    The raw device [/dev/sda1] holds a directory [/docs] (inode 11) with the
    entries [.], [..], [$OrphanFiles], [report.txt] (inode 1234, 512 bytes,
    mode 0644), [note.txt] (inode 55, with the named stream [secret]) and one
    entry without a metadata block. *)
Module Example.

Definition content (n : nat) : list byte := repeat x41 n.

Definition report_meta : TSK_FS_META :=
  mkMeta 1234 pytsk3.TSK_FS_META_TYPE_REG (Some 420) (Some 1) (Some 0) (Some 0)
         (Some 512) (Some (-1)) (Some 1300000000) None.

Definition default_attr (sz : Z) : TSK_FS_ATTR :=
  mkAttr pytsk3.TSK_FS_ATTR_TYPE_NTFS_DATA 1 None sz.

Definition report_named : File :=
  mkFile (Some (mkName "report.txt" pytsk3.TSK_FS_NAME_TYPE_REG))
         (Some report_meta) [default_attr 512]
         (Raise (IOError "not a directory"))
         (fun off len _ _ => Ok (slice (content 512) off len)).

(** The same file as [open_meta] gives it: without a name. *)
Definition report_by_inode : File :=
  mkFile None (Some report_meta) [default_attr 512]
         (Raise (IOError "not a directory"))
         (fun off len _ _ => Ok (slice (content 512) off len)).

Definition note_meta : TSK_FS_META :=
  mkMeta 55 pytsk3.TSK_FS_META_TYPE_REG (Some 420) (Some 1) (Some 0) (Some 0)
         (Some 20) (Some 5) (Some 6) (Some 7).

Definition secret_attr : TSK_FS_ATTR :=
  mkAttr pytsk3.TSK_FS_ATTR_TYPE_NTFS_DATA 2 (Some "secret") 10.

Definition note : File :=
  mkFile (Some (mkName "note.txt" pytsk3.TSK_FS_NAME_TYPE_REG))
         (Some note_meta)
         [default_attr 20; mkAttr 0x30 3 (Some "name") 60; secret_attr]
         (Raise (IOError "not a directory"))
         (fun off len _ id =>
            Ok (slice (content (if id =? 2 then 10 else 20)) off len)).

Definition dir_meta (addr : Z) : TSK_FS_META :=
  mkMeta addr pytsk3.TSK_FS_META_TYPE_DIR (Some 493) (Some 2) (Some 0) (Some 0)
         (Some 4096) (Some 1) (Some 1) (Some 1).

Definition pseudo (n : string) (addr : Z) : File :=
  mkFile (Some (mkName n pytsk3.TSK_FS_NAME_TYPE_DIR)) (Some (dir_meta addr)) []
         (Ok []) (fun _ _ _ _ => Raise (RuntimeError "not a file")).

Definition no_meta : File :=
  mkFile (Some (mkName "lost.txt" pytsk3.TSK_FS_NAME_TYPE_REG)) None []
         (Raise (IOError "no metadata"))
         (fun _ _ _ _ => Raise (RuntimeError "no metadata")).

Definition docs_children : list File :=
  [pseudo "." 11; pseudo ".." 2; pseudo "$OrphanFiles" 99;
   report_named; no_meta; note].

Definition docs : File :=
  mkFile (Some (mkName "docs" pytsk3.TSK_FS_NAME_TYPE_DIR)) (Some (dir_meta 11))
         [] (Ok docs_children) (fun _ _ _ _ => Raise (RuntimeError "not a file")).

(** A file whose reads fail inside the parser. *)
Definition damaged : File :=
  mkFile (Some (mkName "damaged.bin" pytsk3.TSK_FS_NAME_TYPE_REG))
         (Some report_meta) [default_attr 512]
         (Raise (IOError "not a directory"))
         (fun _ _ _ _ => Raise (RuntimeError "tsk_fs_file_read failed")).

Definition image_fs : FS :=
  mkFS (fun p =>
          if String.eqb p "/docs" then Ok docs
          else if String.eqb p "/docs/report.txt" then Ok report_named
          else if String.eqb p "/docs/note.txt" then Ok note
          else if String.eqb p "/docs/damaged.bin" then Ok damaged
          else Raise (IOError "Unable to open file"))
       (fun i =>
          if i =? 11 then Ok docs
          else if i =? 1234 then Ok report_by_inode
          else Raise (IOError "Unable to open inode")).

Definition collaborators : Collaborators :=
  {| JoinPath := fun a b => a +:+ "/" +:+ b;
     GetRawDevice := fun p =>
       (mkPath OS "/dev/sda1" CASE_INSENSITIVE None 0 0, p);
     LocalPathToCanonicalPath := fun p => p;
     FS_Info := fun _ _ => Ok image_fs;
     max_age := 600 |}.

(** The raw device, an open handler of the operating-system driver. *)
Definition sda1 : VFSHandler :=
  FileHandler (mkOther [mkPath OS "/dev/sda1" CASE_INSENSITIVE None 0 0]
                       "/dev/sda1" None false).

Definition runtime0 : Runtime := mkRuntime ∅ 0 [].

Definition tsk_component (p : string) (i : option Z) : Path :=
  mkPath TSK p CASE_INSENSITIVE i 0 0.

End Example.

(** The handlers the constructor builds on that image. *)
Module Handles.
Import Example.

Definition sda1_component : Path :=
  mkPath OS "/dev/sda1" CASE_INSENSITIVE None 0 0.

Definition cached : CachedFilesystem := mkCached image_fs (mkImg sda1).

(** The handler of [/docs], as the constructor builds it on [sda1]. *)
Definition docs_handle : TSKFile :=
  mkTSKFile (Some sda1)
    [sda1_component; mkPath TSK "/docs" CASE_LITERAL (Some 11) 0 0]
    (Some sda1) "/docs" (Some cached) (Some docs) 4096 0 "/".

(** The handler of [/docs/report.txt], opened by name below [docs_handle]. *)
Definition report_handle : TSKFile :=
  mkTSKFile (Some (TSKHandler docs_handle))
    [sda1_component; mkPath TSK "/docs/report.txt" CASE_LITERAL (Some 1234) 0 0]
    (Some sda1) "/docs/report.txt" (Some cached) (Some report_named) 512 0 "/".

(** The same file opened by inode: the parser gives it no name. *)
Definition report_inode_handle : TSKFile :=
  mkTSKFile (Some (TSKHandler docs_handle))
    [sda1_component; mkPath TSK "/docs/" CASE_LITERAL (Some 1234) 0 0]
    (Some sda1) "/docs/" (Some cached) (Some report_by_inode) 512 0 "/".

Definition damaged_handle : TSKFile :=
  mkTSKFile (Some (TSKHandler docs_handle))
    [sda1_component; mkPath TSK "/docs/damaged.bin" CASE_LITERAL (Some 1234) 0 0]
    (Some sda1) "/docs/damaged.bin" (Some cached) (Some damaged) 512 0 "/".

(** The runtime after [/docs] was opened at time 0. *)
Definition runtime1 : Runtime :=
  mkRuntime (<["/dev/sda1" := (0, cached)]> ∅) 0
            [EvFS_Info "/dev/sda1" 0; EvOpen "/docs"].

(** The response [ListFiles] gives for [report.txt]. *)
Definition report_stat : StatResponse :=
  mkStat 1234 33188 1 0 0 512 4294967295 1300000000 0
    [sda1_component; mkPath TSK "/docs/report.txt" CASE_LITERAL (Some 1234) 0 0].

End Handles.


(** ** Callers: iterating [ListNames], reading in a row *)

(** Iterating [h.ListNames()] to its end from runtime [r]: the names
    yielded, how the iteration ended, and the runtime reached. *)
Definition run_ListNames (h : TSKFile) (r : Runtime)
    : list string * result unit * Runtime :=
  match ListNames (mkState h r, []) with
  | (res, (s, out)) => (out, res, runtime s)
  end.

(** [Read(n)] for each [n] of [lengths] in turn, the results joined; the
    first exception ends the loop. *)
Fixpoint Read_each (lengths : list Z) : M State (list byte) :=
  match lengths with
  | [] => ret []
  | n :: rest =>
      (data <- Read n ;;
       more <- Read_each rest ;;
       ret (data ++ more))%py
  end.

(** Whether an attribute is the one [(type, id)] names. *)
Definition attribute_matches (type id : Z) (a : TSK_FS_ATTR) : bool :=
  (attr_type a =? type) && (attr_id a =? id).

(** The raw device a handler constructed on [base] takes: that of the base
    when the base is a directory of this driver, else the base itself. *)
Definition raw_device_on (base : VFSHandler) : option VFSHandler :=
  match base with
  | TSKHandler hb =>
      match IsDirectory hb with
      | Ok true => tsk_raw_device hb
      | _ => Some base
      end
  | FileHandler _ => Some base
  end.

Section Constructed.
Context `{Collaborators}.

(** The handlers the constructor can produce: on a handler of another
    driver, or on a handler it produced before. *)
Inductive constructed : TSKFile -> Prop :=
| constructed_on_file (o : OtherHandler) (component : Path) (rt : Runtime)
    (h : TSKFile) (rt' : Runtime) :
    TSKFile_construct (Some (FileHandler o)) component rt = (Ok tt, h, rt') ->
    constructed h
| constructed_on_handler (hb : TSKFile) (component : Path) (rt : Runtime)
    (h : TSKFile) (rt' : Runtime) :
    constructed hb ->
    TSKFile_construct (Some (TSKHandler hb)) component rt = (Ok tt, h, rt') ->
    constructed h.

End Constructed.

(** ** Callers: the constructor as an expression, opens one after the other *)

Section Callers.
Context `{Collaborators}.







End Callers.

(** ** Further handlers and collaborators, for the examples *)
Module Further.
Import Example Handles.

(** The component for the stream [secret] of [note.txt], by path. *)
Definition note_stream_component : Path :=
  mkPath TSK "note.txt" CASE_INSENSITIVE None
    pytsk3.TSK_FS_ATTR_TYPE_NTFS_DATA 2.

(** The handler the constructor builds for it below [docs_handle]: the size
    is that of the metadata block, 20, and the stream holds 10 bytes. *)
Definition note_stream_handle : TSKFile :=
  mkTSKFile (Some (TSKHandler docs_handle))
    [sda1_component;
     mkPath TSK "/docs/note.txt" CASE_LITERAL (Some 55)
       pytsk3.TSK_FS_ATTR_TYPE_NTFS_DATA 2]
    (Some sda1) "/docs/note.txt" (Some cached) (Some note) 20 0 "/".

(** A socket whose metadata block has no mode field. *)
Definition modeless_meta : TSK_FS_META :=
  mkMeta 77 pytsk3.TSK_FS_META_TYPE_SOCK None (Some 1) (Some 0) (Some 0)
         (Some 0) (Some 1) (Some 1) (Some 1).

Definition modeless : File :=
  mkFile (Some (mkName "agent.sock" pytsk3.TSK_FS_NAME_TYPE_SOCK))
         (Some modeless_meta) []
         (Raise (IOError "not a directory"))
         (fun _ _ _ _ => Raise (RuntimeError "not a file")).


(** The handler of [/docs/note.txt], opened by name below [docs_handle]. *)
Definition note_handle : TSKFile :=
  mkTSKFile (Some (TSKHandler docs_handle))
    [sda1_component; mkPath TSK "/docs/note.txt" CASE_LITERAL (Some 55) 0 0]
    (Some sda1) "/docs/note.txt" (Some cached) (Some note) 20 0 "/".

(** The component for the unnamed data stream of inode 1234. *)
Definition report_stream_component : Path :=
  mkPath TSK "report.txt" CASE_INSENSITIVE (Some 1234)
    pytsk3.TSK_FS_ATTR_TYPE_NTFS_DATA 1.

(** A machine on which no device holds a filesystem the parser knows. *)
Definition unreadable : Collaborators :=
  {| JoinPath := fun a b => a +:+ "/" +:+ b;
     GetRawDevice := fun p =>
       (mkPath OS "/dev/sda1" CASE_INSENSITIVE None 0 0, p);
     LocalPathToCanonicalPath := fun p => p;
     FS_Info := fun _ _ => Raise (IOError "Cannot determine file system type");
     max_age := 600 |}.

End Further.

(** * Properties *)

(** ** The result monad and the address *)

Lemma last_app (ps : Pathspec.t) (c : Path) : Pathspec.last (ps ++ [c]) = Ok c.
Proof.
  induction ps as [|a ps IH]; [reflexivity|].
  simpl. destruct (ps ++ [c]) eqn:E; [by destruct ps|exact IH].
Qed.

Lemma update_last_app (f : Path -> Path) (ps : Pathspec.t) (c : Path) :
  Pathspec.update_last f (ps ++ [c]) = Ok (ps ++ [f c]).
Proof.
  unfold Pathspec.update_last. rewrite last_app.
  by rewrite removelast_last.
Qed.

Lemma Pop_last_app (ps : Pathspec.t) (c : Path) :
  Pathspec.Pop_last (ps ++ [c]) = Ok ps.
Proof.
  unfold Pathspec.Pop_last. rewrite removelast_last.
  by destruct ps.
Qed.

Lemma nonempty_snoc (ps : Pathspec.t) :
  ps <> [] -> exists init c, ps = init ++ [c].
Proof.
  intros Hne. destruct (exists_last Hne) as (init & c & ->). eauto.
Qed.

Lemma last_raises (ps : Pathspec.t) (e : exn) :
  Pathspec.last ps = Raise e -> e = IndexError /\ ps = [].
Proof.
  destruct ps as [|c ps]; [by intros [= <-]|].
  destruct (nonempty_snoc (c :: ps)) as (init & c' & ->); [done|].
  by rewrite last_app.
Qed.

(** ** MakeStatResponse *)

Lemma getattr_meta_raises (meta : TSK_FS_META) (a : meta_field) (e : exn) :
  getattr_meta meta a = Raise e -> e = AttributeError.
Proof.
  unfold getattr_meta.
  destruct a;
    match goal with |- context [match ?o with _ => _ end] => destruct o end;
    congruence.
Qed.

Lemma setattr_st_same (a : meta_field) (r : StatResponse) :
  setattr_st a (st_field a r) r = r.
Proof. by destruct r, a. Qed.

Lemma copy_field_Ok (meta : TSK_FS_META) (a : meta_field) (r : StatResponse) :
  copy_field meta a r = Ok (setattr_st a (stored_value meta a (st_field a r)) r).
Proof.
  unfold copy_field, stored_value.
  destruct (getattr_meta meta a) as [raw|e] eqn:E; [reflexivity|].
  apply getattr_meta_raises in E as ->. by rewrite setattr_st_same.
Qed.

Lemma copy_fields_stat_fields (meta : TSK_FS_META) (r : StatResponse) :
  copy_fields meta stat_fields r =
  Ok (mkStat (st_ino r)
        (stored_value meta f_mode (st_mode r))
        (stored_value meta f_nlink (st_nlink r))
        (stored_value meta f_uid (st_uid r))
        (stored_value meta f_gid (st_gid r))
        (stored_value meta f_size (st_size r))
        (stored_value meta f_atime (st_atime r))
        (stored_value meta f_mtime (st_mtime r))
        (stored_value meta f_ctime (st_ctime r))
        (st_pathspec r)).
Proof.
  unfold stat_fields. cbn [copy_fields].
  repeat (rewrite copy_field_Ok; cbn [copy_fields]).
  reflexivity.
Qed.

Section MakeStatResponse_facts.
Context `{Collaborators}.

Lemma MakeStatResponse_with_meta (h : TSKFile) (f : File) (m : TSK_FS_META)
    (tsk_attribute : option TSK_FS_ATTR) (append_name : option string) :
  info_meta f = Some m ->
  MakeStatResponse h f tsk_attribute append_name =
  rbind (child_address h m tsk_attribute append_name) (fun ps =>
    Ok (mkStat (meta_addr m)
          (Z.lor (Z.lor (stored_value m f_mode 0) (name_type_bits f))
                 (meta_type_bits m))
          (stored_value m f_nlink 0) (stored_value m f_uid 0)
          (stored_value m f_gid 0) (stored_value m f_size 0)
          (stored_value m f_atime 0) (stored_value m f_mtime 0)
          (stored_value m f_ctime 0) ps)).
Proof.
  intros Hm.
  unfold MakeStatResponse, child_address, name_type_bits, meta_type_bits.
  rewrite Hm, copy_fields_stat_fields. unfold Pathspec.Copy. cbn [rbind].
  destruct (truthy append_name), tsk_attribute as [a|]; cbn [rbind].
  all: repeat match goal with
       | |- context [Pathspec.update_last ?g ?p] =>
           destruct (Pathspec.update_last g p); cbn [rbind]; try reflexivity
       | |- context [attr_name ?a] =>
           destruct (attr_name a); cbn [rbind]; try reflexivity
       end.
  all: destruct (info_name f); unfold or_st_mode, set_st_pathspec;
    cbn [setattr_st st_mode st_ino st_nlink st_uid st_gid st_size st_atime
         st_mtime st_ctime st_pathspec set_st_ino StatResponse_new];
    rewrite ?Z.lor_0_r; reflexivity.
Qed.

End MakeStatResponse_facts.

Example construct_docs :
  @TSKFile_construct Example.collaborators (Some Example.sda1)
     (Example.tsk_component "/docs" None) Example.runtime0
  = (Ok tt, Handles.docs_handle, Handles.runtime1).
Proof. vm_compute. reflexivity. Qed.

Section MakeStatResponse_properties.
Context `{Collaborators}.

Lemma child_address_snoc (h : TSKFile) (m : TSK_FS_META)
    (tsk_attribute : option TSK_FS_ATTR) (append_name : option string)
    (init : Pathspec.t) (c : Path) :
  pathspec h = init ++ [c] ->
  child_address h m tsk_attribute append_name
  = Ok (init ++ [child_component c m tsk_attribute append_name]).
Proof.
  intros Hps. unfold child_address, child_component. rewrite Hps.
  destruct (truthy append_name); rewrite ?update_last_app; cbn [rbind];
    rewrite update_last_app; cbn [rbind];
    (destruct tsk_attribute as [a|]; [|reflexivity]);
    rewrite !update_last_app; cbn [rbind]; rewrite update_last_app;
    cbn [rbind]; (destruct (attr_name a); [|reflexivity]);
    by rewrite update_last_app.
Qed.

Lemma MakeStatResponse_total (h : TSKFile) (f : File) (m : TSK_FS_META)
    (tsk_attribute : option TSK_FS_ATTR) (append_name : option string) :
  info_meta f = Some m ->
  pathspec h <> [] ->
  exists r, MakeStatResponse h f tsk_attribute append_name = Ok r.
Proof.
  intros Hm Hne. destruct (nonempty_snoc _ Hne) as (init & c & Hps).
  rewrite (MakeStatResponse_with_meta _ _ _ _ _ Hm).
  rewrite (child_address_snoc _ _ _ _ _ _ Hps). cbn [rbind]. eauto.
Qed.


Lemma MakeStatResponse_inv (h : TSKFile) (f : File) (m : TSK_FS_META)
    (tsk_attribute : option TSK_FS_ATTR) (append_name : option string)
    (r : StatResponse) :
  info_meta f = Some m ->
  MakeStatResponse h f tsk_attribute append_name = Ok r ->
  exists ps,
    child_address h m tsk_attribute append_name = Ok ps /\
    r = mkStat (meta_addr m)
          (Z.lor (Z.lor (stored_value m f_mode 0) (name_type_bits f))
                 (meta_type_bits m))
          (stored_value m f_nlink 0) (stored_value m f_uid 0)
          (stored_value m f_gid 0) (stored_value m f_size 0)
          (stored_value m f_atime 0) (stored_value m f_mtime 0)
          (stored_value m f_ctime 0) ps.
Proof.
  intros Hm. rewrite (MakeStatResponse_with_meta _ _ _ _ _ Hm).
  destruct (child_address h m tsk_attribute append_name) as [ps|e];
    cbn [rbind]; [|discriminate].
  intros [= <-]. eauto.
Qed.

Lemma unsigned32_if_negative_mod (raw : Z) :
  raw < 0 -> unsigned32_if_negative raw = raw mod 2 ^ 32.
Proof.
  intros Hneg. unfold unsigned32_if_negative.
  destruct (Z.ltb_spec raw 0); [|lia].
  change 0xFFFFFFFF with (Z.ones 32). by rewrite Z.land_ones.
Qed.

Lemma unsigned32_if_negative_id (raw : Z) :
  0 <= raw -> unsigned32_if_negative raw = raw.
Proof.
  intros Hpos. unfold unsigned32_if_negative.
  destruct (Z.ltb_spec raw 0); [lia|reflexivity].
Qed.


(** C7 (amended): for each of nlink, uid, gid, size, atime, mtime and ctime
    the returned response holds the raw value masked to its low 32 bits when
    it is negative, the raw value itself otherwise, and the zero of a fresh
    response when the metadata lacks the field.  The copy loop stores mode in
    the same way, but the returned [st_mode] is that stored value merged by
    bitwise OR with the type bits of the name type and of the metadata
    type. *)
Theorem scalar_fields_stored_unsigned32 (h : TSKFile) (f : File)
    (m : TSK_FS_META) (tsk_attribute : option TSK_FS_ATTR)
    (append_name : option string) (r : StatResponse) (a : meta_field) :
  info_meta f = Some m ->
  MakeStatResponse h f tsk_attribute append_name = Ok r ->
  exists stored,
    stored = match getattr_meta m a with
             | Ok raw => if raw <? 0 then Z.land raw 0xFFFFFFFF else raw
             | Raise _ => 0
             end /\
    (forall raw, getattr_meta m a = Ok raw -> raw < 0 ->
       stored = raw mod 2 ^ 32) /\
    (forall raw, getattr_meta m a = Ok raw -> 0 <= raw -> stored = raw) /\
    (a <> f_mode -> st_field a r = stored) /\
    (a = f_mode ->
     st_field a r =
       Z.lor
         (Z.lor stored
            match info_name f with
            | Some n => default 0 (FILE_TYPE_LOOKUP !! name_type n)
            | None => 0
            end)
         (default 0 (META_TYPE_LOOKUP !! meta_type m))) /\
    exists copied,
      copy_fields m stat_fields (set_st_ino (meta_addr m) StatResponse_new)
        = Ok copied /\
      st_field a copied = stored.
Proof.
  intros Hm Hr.
  destruct (MakeStatResponse_inv _ _ _ _ _ _ Hm Hr) as (ps & _ & ->).
  exists (stored_value m a 0). unfold stored_value at 1.
  split; [by destruct (getattr_meta m a)|].
  split; [intros raw Hraw Hneg; unfold stored_value; rewrite Hraw;
          by apply unsigned32_if_negative_mod|].
  split; [intros raw Hraw Hpos; unfold stored_value; rewrite Hraw;
          by apply unsigned32_if_negative_id|].
  split; [intros Hnm; by destruct a|].
  split.
  - intros ->. cbn [st_field st_mode].
    by unfold name_type_bits, meta_type_bits, dict_get.
  - rewrite copy_fields_stat_fields. eexists. split; [reflexivity|].
    by destruct a.
Qed.

End MakeStatResponse_properties.



(** [report.txt] has the raw access time -1: the response holds
    0xFFFFFFFF. *)
Lemma scalar_fields_witness :
  info_meta Example.report_named = Some Example.report_meta /\
  @MakeStatResponse Example.collaborators Handles.docs_handle
    Example.report_named None (Some "report.txt") = Ok Handles.report_stat /\
  getattr_meta Example.report_meta f_atime = Ok (-1) /\
  st_atime Handles.report_stat = 0xFFFFFFFF.
Proof.
  assert (Hr : @MakeStatResponse Example.collaborators Handles.docs_handle
                 Example.report_named None (Some "report.txt")
               = Ok Handles.report_stat) by (vm_compute; reflexivity).
  split; [reflexivity|]. split; [exact Hr|]. split; [reflexivity|].
  destruct (@scalar_fields_stored_unsigned32 Example.collaborators
              Handles.docs_handle Example.report_named Example.report_meta
              None (Some "report.txt") Handles.report_stat f_atime eq_refl Hr)
    as (stored & Hstored & _ & _ & Hfield & _).
  change (st_field f_atime Handles.report_stat = 0xFFFFFFFF).
  rewrite (Hfield ltac:(discriminate)), Hstored. reflexivity.
Defined.

(** C7, at the mode: the raw mode 420 of [report.txt] is not negative, yet
    the response holds 33188, not 420; and for a socket whose metadata has
    no mode field [st_mode] is not left at zero but holds the type bits. *)
Lemma st_mode_is_not_the_stored_mode :
  getattr_meta Example.report_meta f_mode = Ok 420 /\
  @MakeStatResponse Example.collaborators Handles.docs_handle
    Example.report_named None (Some "report.txt") = Ok Handles.report_stat /\
  st_field f_mode Handles.report_stat = 33188 /\
  (st_field f_mode Handles.report_stat =? 420) = false /\
  getattr_meta Further.modeless_meta f_mode = Raise AttributeError /\
  exists r,
    @MakeStatResponse Example.collaborators Handles.docs_handle
      Further.modeless None (Some "agent.sock") = Ok r /\
    st_field f_mode r = 0xC000 /\
    (st_field f_mode r =? 0) = false.
Proof.
  repeat split; try (vm_compute; reflexivity).
  eexists. repeat split; vm_compute; reflexivity.
Qed.

(** ** Read *)

Section Read_properties.
Context `{Collaborators}.

Lemma IsFile_true_inv (h : TSKFile) :
  IsFile h = Ok true ->
  exists f m, fd h = Some f /\ info_meta f = Some m /\
              meta_type m = pytsk3.TSK_FS_META_TYPE_REG.
Proof.
  unfold IsFile, fd_of, meta_of.
  destruct (fd h) as [f|]; cbn [rbind]; [|discriminate].
  destruct (info_meta f) as [m|] eqn:Hm; cbn [rbind]; [|discriminate].
  intros [= Ht]. apply Z.eqb_eq in Ht.
  exists f, m. split; [reflexivity|]. split; [exact Hm|exact Ht].
Qed.

Lemma slice_length (data : list byte) (off len : Z) :
  0 <= off -> 0 <= len -> off + len <= Z.of_nat (List.length data) ->
  Z.of_nat (List.length (slice data off len)) = len.
Proof.
  intros Hoff Hlen Hfit. unfold slice.
  rewrite length_firstn, length_skipn. lia.
Qed.

Lemma Read_on_file (h : TSKFile) (length : Z) (rt : Runtime) :
  IsFile h = Ok true ->
  Read length (mkState h rt) =
  (let available := Z.min (size h - offset h) length in
   if 0 <? available then
     (data <- try_except
                (f <- lift (fd_of h) ;;
                 last <- lift (Pathspec.last (pathspec h)) ;;
                 call_read_random f (offset h) available
                   (ntfs_type last) (ntfs_id last))
                is_RuntimeError
                (fun e => raise (IOError (exn_message e))) ;;
      modify (on_self (set_offset (offset h + Z.of_nat (List.length data)))) ;;;
      ret data)%py (mkState h rt)
   else (Ok [], mkState h rt)).
Proof.
  intros Hfile. unfold Read at 1, bind at 1 2, gets, lift at 1. cbn [self].
  rewrite Hfile. cbn [negb]. by destruct (0 <? _).
Qed.

(** C1 (amended): on a handle of a regular file with size [S] and offset
    [O], [Read(length)] asks the file for exactly [min(S - O, length)] bytes
    at offset [O] of the stream its address names when that number is
    positive, returns the bytes of that read and advances the offset by the
    number of bytes returned; on a stream that holds at least [S] bytes
    these are exactly [min(S - O, length)] bytes.  When the number is not
    positive, [Read] returns the empty string, raises nothing, reads nothing
    and leaves the handle as it was. *)
Theorem Read_returns_available_bytes (h : TSKFile) (f : File) (c : Path)
    (length : Z) (rt : Runtime) :
  IsFile h = Ok true ->
  fd h = Some f ->
  Pathspec.last (pathspec h) = Ok c ->
  let available := Z.min (size h - offset h) length in
  let request := EvReadRandom (offset h) available (ntfs_type c) (ntfs_id c) in
  (available <= 0 -> Read length (mkState h rt) = (Ok [], mkState h rt)) /\
  (0 < available ->
   forall data,
     read_random f (offset h) available (ntfs_type c) (ntfs_id c) = Ok data ->
     Read length (mkState h rt) =
       (Ok data,
        mkState (set_offset (offset h + Z.of_nat (List.length data)) h)
                (log request rt))) /\
  (0 < available ->
   forall content,
     (forall off len, read_random f off len (ntfs_type c) (ntfs_id c)
                      = Ok (slice content off len)) ->
     0 <= offset h -> size h <= Z.of_nat (List.length content) ->
     exists data,
       Read length (mkState h rt) =
         (Ok data, mkState (set_offset (offset h + available) h)
                           (log request rt)) /\
       data = slice content (offset h) available /\
       Z.of_nat (List.length data) = available).
Proof.
  intros Hfile Hfd Hlast available request.
  assert (Hread : 0 < available -> forall data,
    read_random f (offset h) available (ntfs_type c) (ntfs_id c) = Ok data ->
    Read length (mkState h rt) =
      (Ok data,
       mkState (set_offset (offset h + Z.of_nat (List.length data)) h)
               (log request rt))).
  { intros Hpos data Hdata. rewrite (Read_on_file _ _ _ Hfile).
    cbn zeta. fold available.
    destruct (Z.ltb_spec 0 available); [|lia].
    unfold bind, try_except, lift, fd_of. rewrite Hfd, Hlast.
    unfold call_read_random, bind, modify, lift. rewrite Hdata.
    reflexivity. }
  split; [|split].
  - intros Hle. rewrite (Read_on_file _ _ _ Hfile). cbn zeta. fold available.
    destruct (Z.ltb_spec 0 available); [lia|reflexivity].
  - exact Hread.
  - intros Hpos content Hstream Hoff Hsize.
    assert (Hlen : Z.of_nat (List.length (slice content (offset h) available))
                   = available).
    { apply slice_length; [lia|lia|]. subst available. lia. }
    exists (slice content (offset h) available).
    rewrite (Hread Hpos _ (Hstream _ _)), Hlen. auto.
Qed.

(** C5: a [RuntimeError] of the random-access read comes out of [Read] as an
    [IOError] with the same message; no call of [Read] ends in a
    [RuntimeError]; and on a handle that is not a regular file [Read] raises
    before it reads anything, leaving handle and runtime as they were. *)
Theorem Read_surfaces_faults_as_IOError (h : TSKFile) (length : Z)
    (rt : Runtime) :
  (forall f c msg,
     IsFile h = Ok true -> fd h = Some f ->
     Pathspec.last (pathspec h) = Ok c ->
     0 < Z.min (size h - offset h) length ->
     read_random f (offset h) (Z.min (size h - offset h) length)
       (ntfs_type c) (ntfs_id c) = Raise (RuntimeError msg) ->
     Read length (mkState h rt) =
       (Raise (IOError msg),
        mkState h (log (EvReadRandom (offset h)
                          (Z.min (size h - offset h) length)
                          (ntfs_type c) (ntfs_id c)) rt))) /\
  (forall msg, (Read length (mkState h rt)).1 <> Raise (RuntimeError msg)) /\
  (IsFile h <> Ok true ->
   is_raise (Read length (mkState h rt)).1 = true /\
   (Read length (mkState h rt)).2 = mkState h rt) /\
  (forall c, IsFile h = Ok false -> Pathspec.last (pathspec h) = Ok c ->
   Read length (mkState h rt) =
     (Raise (IOError (path c +:+ " is not a file.")), mkState h rt)).
Proof.
  split; [|split; [|split]].
  - intros f c msg Hfile Hfd Hlast Hpos Hfault.
    rewrite (Read_on_file _ _ _ Hfile). cbn zeta.
    destruct (Z.ltb_spec 0 (Z.min (size h - offset h) length)); [|lia].
    unfold bind, try_except, lift, fd_of. rewrite Hfd, Hlast.
    unfold call_read_random, bind, modify, lift. rewrite Hfault.
    reflexivity.
  - intros msg. unfold Read, bind, gets, lift. cbn [self].
    destruct (IsFile h) as [[|]|e] eqn:Hfile; cbn [negb fst].
    + destruct (0 <? _); [|by unfold ret].
      unfold try_except, bind, lift, fd_of, call_read_random, modify, raise,
        ret.
      destruct (fd h) as [f|]; [|done].
      destruct (Pathspec.last (pathspec h)) as [c|e]; [|by destruct e].
      unfold bind, lift.
      destruct (read_random f _ _ _ _) as [data|e]; [done|].
      destruct e; cbn; discriminate.
    + unfold raise.
      destruct (Pathspec.last (pathspec h)) as [c|e] eqn:Hlast; [done|].
      by apply last_raises in Hlast as [-> _].
    + unfold IsFile, fd_of, meta_of in Hfile.
      destruct (fd h) as [f|]; cbn [rbind] in Hfile; [|by injection Hfile as <-].
      destruct (info_meta f); cbn [rbind] in Hfile; [discriminate|].
      by injection Hfile as <-.
  - intros Hnot. unfold Read, bind, gets, lift. cbn [self].
    destruct (IsFile h) as [[|]|e]; [done| |done].
    cbn [negb]. by destruct (Pathspec.last (pathspec h)).
  - intros c Hfile Hlast. unfold Read, bind, gets, lift. cbn [self].
    by rewrite Hfile, Hlast.
Qed.

End Read_properties.

(** ** ListFiles *)

Section ListFiles_properties.
Context `{Collaborators}.

Lemma MakeStatResponse_snoc (h : TSKFile) (f : File) (m : TSK_FS_META)
    (tsk_attribute : option TSK_FS_ATTR) (append_name : option string)
    (init : Pathspec.t) (c : Path) :
  pathspec h = init ++ [c] ->
  info_meta f = Some m ->
  MakeStatResponse h f tsk_attribute append_name
  = Ok (response_of init c f m tsk_attribute append_name).
Proof.
  intros Hps Hm. rewrite (MakeStatResponse_with_meta _ _ _ _ _ Hm).
  by rewrite (child_address_snoc _ _ _ _ _ _ Hps).
Qed.







End ListFiles_properties.

Section ListFiles_errors.
Context `{Collaborators}.

(** On a handle whose entry is not a directory and has a name, the first
    step of the iteration raises the [IOError], with nothing yielded and no
    call into the parser. *)
Lemma ListFiles_not_a_directory (h : TSKFile) (f : File) (n : TSK_FS_NAME)
    (rt : Runtime) :
  IsDirectory h = Ok false ->
  fd h = Some f ->
  info_name f = Some n ->
  run_ListFiles h rt
  = ([], Raise (IOError (name_name n +:+ " is not a directory")), rt).
Proof.
  intros Hdir Hfd Hn.
  unfold run_ListFiles, ListFiles, bind, gets, lift. cbn [fst self].
  rewrite Hdir. unfold fd_of, name_of. by rewrite Hfd, Hn.
Qed.

(** Without a name the message of that [IOError] cannot be built. *)
Lemma ListFiles_not_a_directory_unnamed (h : TSKFile) (f : File)
    (rt : Runtime) :
  IsDirectory h = Ok false ->
  fd h = Some f ->
  info_name f = None ->
  run_ListFiles h rt = ([], Raise AttributeError, rt).
Proof.
  intros Hdir Hfd Hn.
  unfold run_ListFiles, ListFiles, bind, gets, lift. cbn [fst self].
  rewrite Hdir. unfold fd_of, name_of. by rewrite Hfd, Hn.
Qed.

End ListFiles_errors.

Example construct_report_by_name :
  @TSKFile_construct Example.collaborators
     (Some (TSKHandler Handles.docs_handle))
     (Example.tsk_component "report.txt" None) Handles.runtime1
  = (Ok tt, Handles.report_handle,
     log (EvOpen "/docs/report.txt") Handles.runtime1).
Proof. vm_compute. reflexivity. Qed.

Example construct_report_by_inode :
  @Open Example.collaborators (Some (TSKHandler Handles.docs_handle))
     (Example.tsk_component "" (Some 1234)) [] Handles.runtime1
  = (ConstructedByInode (Ok tt) Handles.report_inode_handle,
     log (EvOpenMeta 1234) Handles.runtime1).
Proof. vm_compute. reflexivity. Qed.

(** C4, at the handle [Open] constructs for inode 1234, a regular file: the
    iteration of [ListFiles] ends in an [AttributeError], not in the
    [IOError] the method means to raise. *)
Theorem ListFiles_on_file_opened_by_inode :
  IsDirectory Handles.report_inode_handle = Ok false /\
  @run_ListFiles Example.collaborators Handles.report_inode_handle
     Handles.runtime1
  = ([], Raise AttributeError, Handles.runtime1).
Proof. split; vm_compute; reflexivity. Qed.

(** The size in the response for a named stream is the size of the entry's
    metadata block, like every other scalar field: the attribute only
    contributes its type, its id and its name to the address. *)
Lemma stream_response_has_entry_size `{Collaborators} (h : TSKFile) (f : File)
    (m : TSK_FS_META) (a : TSK_FS_ATTR) (append_name : option string)
    (r : StatResponse) :
  info_meta f = Some m ->
  MakeStatResponse h f (Some a) append_name = Ok r ->
  st_size r = match meta_size m with
              | Some raw => unsigned32_if_negative raw
              | None => 0
              end /\
  exists l, Pathspec.last (st_pathspec r) = Ok l /\
            ntfs_type l = attr_type a /\ ntfs_id l = attr_id a /\
            inode l = Some (meta_addr m).
Proof.
  intros Hm Hr.
  destruct (MakeStatResponse_inv _ _ _ _ _ _ Hm Hr) as (ps & Hps & ->).
  split.
  { cbn [st_size]. unfold stored_value, getattr_meta.
    by destruct (meta_size m). }
  cbn [st_pathspec].
  destruct (pathspec h) as [|c0 rest] eqn:Hh.
  { unfold child_address in Hps. rewrite Hh in Hps.
    by destruct (truthy append_name). }
  destruct (nonempty_snoc (c0 :: rest)) as (init & c & Hsnoc); [done|].
  rewrite Hsnoc in Hh. rewrite (child_address_snoc _ _ _ _ _ _ Hh) in Hps.
  injection Hps as <-. eexists. split; [apply last_app|].
  unfold child_component. by destruct (attr_name a).
Qed.

Lemma stream_response_witness :
  info_meta Example.note = Some Example.note_meta /\
  attr_size Example.secret_attr = 10 /\
  exists r,
    @MakeStatResponse Example.collaborators Handles.docs_handle Example.note
      (Some Example.secret_attr) (Some "note.txt") = Ok r /\
    st_size r = 20.
Proof.
  split; [reflexivity|]. split; [reflexivity|].
  destruct (@MakeStatResponse_total Example.collaborators Handles.docs_handle
              Example.note Example.note_meta (Some Example.secret_attr)
              (Some "note.txt") eq_refl) as [r Hr]; [discriminate|].
  exists r. split; [exact Hr|].
  destruct (@stream_response_has_entry_size Example.collaborators
              Handles.docs_handle Example.note Example.note_meta
              Example.secret_attr (Some "note.txt") r eq_refl Hr) as [Hsize _].
  exact Hsize.
Defined.

Lemma ListFiles_not_a_directory_witness :
  IsDirectory Handles.report_handle = Ok false /\
  @run_ListFiles Example.collaborators Handles.report_handle Handles.runtime1
  = ([], Raise (IOError "report.txt is not a directory"), Handles.runtime1).
Proof.
  split; [reflexivity|].
  apply (@ListFiles_not_a_directory Example.collaborators
           Handles.report_handle Example.report_named
           (mkName "report.txt" pytsk3.TSK_FS_NAME_TYPE_REG));
    reflexivity.
Defined.

(** The 512 bytes of [report.txt]: [Read(1024)] returns them all, and a
    second [Read(1024)], at offset 512, returns the empty string. *)
Lemma Read_witness :
  IsFile Handles.report_handle = Ok true /\
  fd Handles.report_handle = Some Example.report_named /\
  Pathspec.last (pathspec Handles.report_handle)
    = Ok (mkPath TSK "/docs/report.txt" CASE_LITERAL (Some 1234) 0 0) /\
  (exists data,
     Read 1024 (mkState Handles.report_handle Handles.runtime1)
       = (Ok data,
          mkState (set_offset 512 Handles.report_handle)
                  (log (EvReadRandom 0 512 0 0) Handles.runtime1)) /\
     data = slice (Example.content 512) 0 512 /\
     Z.of_nat (List.length data) = 512) /\
  Read 1024 (mkState (set_offset 512 Handles.report_handle) Handles.runtime1)
    = (Ok [], mkState (set_offset 512 Handles.report_handle) Handles.runtime1).
Proof.
  split; [reflexivity|]. split; [reflexivity|]. split; [reflexivity|]. split.
  - destruct (Read_returns_available_bytes Handles.report_handle
                Example.report_named
                (mkPath TSK "/docs/report.txt" CASE_LITERAL (Some 1234) 0 0)
                1024 Handles.runtime1 eq_refl eq_refl eq_refl)
      as (_ & _ & Hexact).
    apply (Hexact eq_refl (Example.content 512)).
    + reflexivity.
    + discriminate.
    + discriminate.
  - destruct (Read_returns_available_bytes
                (set_offset 512 Handles.report_handle) Example.report_named
                (mkPath TSK "/docs/report.txt" CASE_LITERAL (Some 1234) 0 0)
                1024 Handles.runtime1 eq_refl eq_refl eq_refl)
      as (Hempty & _).
    apply Hempty. discriminate.
Defined.

(** C1, at the stream [secret] of [note.txt] opened by path: the constructor
    takes the size, 20, from the metadata block of the entry, the stream
    holds 10 bytes, and [Read(20)] returns 10 bytes where
    [min(S - O, length)] is 20. *)
Lemma Read_of_short_stream_returns_fewer_bytes :
  @TSKFile_construct Example.collaborators
     (Some (TSKHandler Handles.docs_handle)) Further.note_stream_component
     Handles.runtime1
  = (Ok tt, Further.note_stream_handle,
     log (EvOpen "/docs/note.txt") Handles.runtime1) /\
  IsFile Further.note_stream_handle = Ok true /\
  Z.min (size Further.note_stream_handle - offset Further.note_stream_handle)
        20 = 20 /\
  Read 20 (mkState Further.note_stream_handle Handles.runtime1)
  = (Ok (Example.content 10),
     mkState (set_offset 10 Further.note_stream_handle)
       (log (EvReadRandom 0 20 pytsk3.TSK_FS_ATTR_TYPE_NTFS_DATA 2)
          Handles.runtime1)) /\
  List.length (Example.content 10) = 10%nat.
Proof. repeat split; vm_compute; reflexivity. Qed.

(** A read the parser fails on ends in an [IOError]; a [Read] on the
    directory [/docs] raises before it reads. *)
Lemma Read_fault_witness :
  Read 100 (mkState Handles.damaged_handle Handles.runtime1)
    = (Raise (IOError "tsk_fs_file_read failed"),
       mkState Handles.damaged_handle
               (log (EvReadRandom 0 100 0 0) Handles.runtime1)) /\
  IsFile Handles.docs_handle = Ok false /\
  Read 100 (mkState Handles.docs_handle Handles.runtime1)
    = (Raise (IOError "/docs is not a file."),
       mkState Handles.docs_handle Handles.runtime1).
Proof.
  split; [|split; [reflexivity|]].
  - destruct (Read_surfaces_faults_as_IOError Handles.damaged_handle 100
                Handles.runtime1) as (Hfault & _).
    apply (Hfault Example.damaged
             (mkPath TSK "/docs/damaged.bin" CASE_LITERAL (Some 1234) 0 0));
      reflexivity.
  - destruct (Read_surfaces_faults_as_IOError Handles.docs_handle 100
                Handles.runtime1) as (_ & _ & _ & Hnotfile).
    apply (Hnotfile (mkPath TSK "/docs" CASE_LITERAL (Some 11) 0 0));
      reflexivity.
Defined.


(** ** Open *)

Section Open_properties.
Context `{Collaborators}.

(** C9: with a base handle present, [Open] hands a component whose inode
    reads 0 (the field unset, or set to 0) to the generic
    [vfs.VFSHandler.Open], with the arguments and the runtime untouched, and
    constructs a handler from the component directly exactly when its inode
    is not 0. *)
Theorem Open_inode_zero_uses_generic_open (base : VFSHandler)
    (component : Path) (pathspec_arg : Pathspec.t) (rt : Runtime) :
  (get_inode component = 0 ->
   Open (Some base) component pathspec_arg rt
   = (GenericOpen (Some base) component pathspec_arg, rt)) /\
  (get_inode component <> 0 ->
   Open (Some base) component pathspec_arg rt
   = (ConstructedByInode
        (TSKFile_construct (Some base) component rt).1.1
        (TSKFile_construct (Some base) component rt).1.2,
      (TSKFile_construct (Some base) component rt).2)) /\
  ((exists res h rt',
      Open (Some base) component pathspec_arg rt
      = (ConstructedByInode res h, rt'))
   <-> get_inode component <> 0).
Proof.
  assert (Hzero : get_inode component = 0 ->
    Open (Some base) component pathspec_arg rt
    = (GenericOpen (Some base) component pathspec_arg, rt)).
  { intros Hi. unfold Open. cbn [is_None andb]. by rewrite Hi. }
  assert (Hfast : get_inode component <> 0 ->
    Open (Some base) component pathspec_arg rt
    = (ConstructedByInode
         (TSKFile_construct (Some base) component rt).1.1
         (TSKFile_construct (Some base) component rt).1.2,
       (TSKFile_construct (Some base) component rt).2)).
  { intros Hi. unfold Open. cbn [is_None andb].
    destruct (Z.eqb_spec (get_inode component) 0); [done|]. cbn [negb].
    by destruct (TSKFile_construct (Some base) component rt) as [[res h] rt']. }
  split; [exact Hzero|]. split; [exact Hfast|]. split.
  - intros (res & h & rt' & Hopen) Hi. rewrite (Hzero Hi) in Hopen.
    discriminate.
  - intros Hi. rewrite (Hfast Hi). eauto.
Qed.

End Open_properties.

(** A component with inode 0, set or unset, below the handler of [/docs]. *)
Lemma Open_inode_zero_witness :
  get_inode (Example.tsk_component "report.txt" (Some 0)) = 0 /\
  get_inode (Example.tsk_component "report.txt" None) = 0 /\
  @Open Example.collaborators (Some (TSKHandler Handles.docs_handle))
     (Example.tsk_component "report.txt" (Some 0)) [] Handles.runtime1
  = (GenericOpen (Some (TSKHandler Handles.docs_handle))
       (Example.tsk_component "report.txt" (Some 0)) [], Handles.runtime1) /\
  @Open Example.collaborators (Some (TSKHandler Handles.docs_handle))
     (Example.tsk_component "report.txt" None) [] Handles.runtime1
  = (GenericOpen (Some (TSKHandler Handles.docs_handle))
       (Example.tsk_component "report.txt" None) [], Handles.runtime1).
Proof.
  split; [reflexivity|]. split; [reflexivity|]. split.
  - apply (@Open_inode_zero_uses_generic_open Example.collaborators
             (TSKHandler Handles.docs_handle)
             (Example.tsk_component "report.txt" (Some 0)) []
             Handles.runtime1).
    reflexivity.
  - apply (@Open_inode_zero_uses_generic_open Example.collaborators
             (TSKHandler Handles.docs_handle)
             (Example.tsk_component "report.txt" None) []
             Handles.runtime1).
    reflexivity.
Defined.

(** ** The constructor *)

Section Constructor_properties.
Context `{Collaborators}.

Ltac run_constructor :=
  repeat (cbv beta iota delta [bind ret lift gets modify on_self
            set_pathspec set_base_fd set_tsk_raw_device set_tsk_path
            TSKFile_new];
          cbn [self runtime base_fd pathspec tsk_raw_device tsk_path
               filesystem fd size offset vfs_path negb];
          rewrite ?last_app, ?Pop_last_app, ?update_last_app).

Ltac project :=
  cbn [self runtime base_fd pathspec tsk_raw_device tsk_path filesystem fd
       size offset vfs_path DEVICE_CACHE clock io_trace fst snd].

Lemma TSKFile_init_on_directory (hb : TSKFile) (component : Path)
    (init : Pathspec.t) (c : Path) (rt : Runtime) :
  IsDirectory hb = Ok true ->
  pathspec hb = init ++ [c] ->
  TSKFile_init (Some (TSKHandler hb)) component (mkState TSKFile_new rt)
  = after_rewrite component
      (mkState
         (mkTSKFile (Some (TSKHandler hb))
            (init ++ [joined_component c component])
            (tsk_raw_device hb) (JoinPath (path c) (path component))
            None None 0 0 "/")
         rt).
Proof.
  intros Hdir Hps.
  unfold TSKFile_init, after_rewrite, VFSHandler_init, chain_on_base,
    self_pathspec_update, joined_component.
  cbn [isinstance_TSKFile handler_IsDirectory handler_pathspec
       handler_tsk_raw_device].
  rewrite Hdir, Hps. unfold Pathspec.Copy, Pathspec.Append.
  run_constructor. reflexivity.
Qed.

Lemma TSKFile_init_on_empty_address (hb : TSKFile) (component : Path)
    (rt : Runtime) :
  IsDirectory hb = Ok true ->
  pathspec hb = [] ->
  (TSKFile_init (Some (TSKHandler hb)) component (mkState TSKFile_new rt)).1
  = Raise IndexError.
Proof.
  intros Hdir Hps.
  unfold TSKFile_init, VFSHandler_init, chain_on_base.
  cbn [isinstance_TSKFile handler_IsDirectory handler_pathspec
       handler_tsk_raw_device].
  rewrite Hdir, Hps. unfold Pathspec.Copy.
  run_constructor. reflexivity.
Qed.

Lemma TSKFile_init_on_file (base : VFSHandler) (component : Path)
    (rt : Runtime) :
  handler_IsDirectory base = Ok false ->
  TSKFile_init (Some base) component (mkState TSKFile_new rt)
  = after_rewrite component
      (mkState
         (mkTSKFile (Some base)
            (handler_pathspec base ++ [set_path_options CASE_LITERAL component])
            (Some base) (path component) None None 0 0 "/")
         rt).
Proof.
  intros Hdir.
  unfold TSKFile_init, after_rewrite, VFSHandler_init, chain_on_base,
    self_pathspec_update.
  rewrite Hdir. unfold Pathspec.Copy, Pathspec.Append.
  destruct (isinstance_TSKFile base); run_constructor; reflexivity.
Qed.

Lemma TSKFile_init_refused (base : VFSHandler) (component : Path)
    (rt : Runtime) :
  isinstance_TSKFile base = false ->
  handler_IsDirectory base = Ok true ->
  (TSKFile_init (Some base) component (mkState TSKFile_new rt)).1
  = Raise (IOError "Unable to parse base using Sleuthkit.").
Proof.
  intros Hother Hdir.
  unfold TSKFile_init, VFSHandler_init, chain_on_base.
  rewrite Hother, Hdir. run_constructor. reflexivity.
Qed.

(** The cache block changes the [filesystem] attribute, the cache and the
    trace, by at most one parse of the device. *)
Lemma cached_filesystem_frame (raw : VFSHandler) (key : string) (h : TSKFile)
    (rt : Runtime) :
  exists fsys cache' new,
    (cached_filesystem raw key (mkState h rt)).2
    = mkState
        (mkTSKFile (base_fd h) (pathspec h) (tsk_raw_device h) (tsk_path h)
           fsys (fd h) (size h) (offset h) (vfs_path h))
        (mkRuntime cache' (clock rt) (io_trace rt ++ new)) /\
    (forall c p, forallb (constructor_event c p) new = true) /\
    ((cached_filesystem raw key (mkState h rt)).1 = Ok tt -> is_Some fsys).
Proof.
  destruct h, rt.
  unfold cached_filesystem, try_except, cache_Get, TimeBasedCache.Get,
    cache_Put, TimeBasedCache.Put, call_FS_Info, set_filesystem, set_cache,
    log.
  cbv beta iota delta [bind ret lift gets modify on_self on_runtime raise].
  cbn [self runtime base_fd pathspec tsk_raw_device tsk_path
       filesystem fd size offset vfs_path DEVICE_CACHE clock io_trace].
  destruct (_ !! key) as [[stamp v]|]; [destruct (_ <? _)|]; cbn [is_KeyError].
  - eexists _, _, []. rewrite app_nil_r. cbn [fst snd]. eauto.
  - destruct (FS_Info _ _); cbn [fst snd];
      eexists _, _, [_]; (split; [reflexivity|]); (split; [done|]);
      [eauto|done].
  - destruct (FS_Info _ _); cbn [fst snd];
      eexists _, _, [_]; (split; [reflexivity|]); (split; [done|]);
      [eauto|done].
Qed.

(** The lookup block: one lookup, by inode or by the path of the address; it
    touches the address only to record the inode a lookup by path found. *)
Lemma open_entry_frame (component : Path) (h : TSKFile) (rt : Runtime)
    (init : Pathspec.t) (l : Path) :
  pathspec h = init ++ [l] ->
  exists new,
    runtime (open_entry component (mkState h rt)).2
    = mkRuntime (DEVICE_CACHE rt) (clock rt) (io_trace rt ++ new) /\
    forallb (constructor_event component (path l)) new = true /\
    tsk_raw_device (self (open_entry component (mkState h rt)).2)
    = tsk_raw_device h /\
    (is_raise (open_entry component (mkState h rt)).1 = true ->
     pathspec (self (open_entry component (mkState h rt)).2) = init ++ [l]) /\
    (HasField_inode component = true ->
     pathspec (self (open_entry component (mkState h rt)).2) = init ++ [l]) /\
    ((open_entry component (mkState h rt)).1 = Ok tt ->
     HasField_inode component = false ->
     exists f m,
       fd (self (open_entry component (mkState h rt)).2) = Some f /\
       info_meta f = Some m /\
       pathspec (self (open_entry component (mkState h rt)).2)
       = init ++ [set_inode (meta_addr m) l]).
Proof.
  intros Hps. destruct h, rt. cbn [pathspec] in Hps. subst.
  unfold open_entry, self_filesystem, call_open_meta, call_open,
    self_pathspec_update, GetAttribute, fd_of, meta_of, set_fd, set_size,
    log.
  cbv beta iota delta [bind ret lift gets modify on_self on_runtime raise
                       rbind set_pathspec].
  cbn [self runtime base_fd pathspec tsk_raw_device tsk_path
       filesystem fd size offset vfs_path DEVICE_CACHE clock io_trace].
  destruct filesystem0 as [cf|].
  2:{ exists []. rewrite app_nil_r. cbn. repeat split; done. }
  destruct (HasField_inode component) eqn:Hinode; project.
  - destruct (fs_open_meta _ _) as [opened|e]; project.
    2:{ exists [EvOpenMeta (get_inode component)]. cbn.
        rewrite Hinode, Z.eqb_refl. repeat split; done. }
    exists [EvOpenMeta (get_inode component)].
    cbn [forallb constructor_event]. rewrite Hinode, Z.eqb_refl.
    destruct (GetAttribute_loop _ _ _); [cbn; repeat split; done|].
    destruct (info_meta opened) as [m|]; [|cbn; repeat split; done].
    destruct (getattr_meta m f_size); cbn; repeat split; done.
  - rewrite last_app.
    destruct (fs_open _ _) as [opened|e]; project.
    2:{ exists [EvOpen (path l)]. cbn.
        rewrite Hinode, String.eqb_refl. repeat split; done. }
    exists [EvOpen (path l)].
    cbn [forallb constructor_event]. rewrite Hinode, String.eqb_refl.
    destruct (info_meta opened) as [m|] eqn:Hm; [|cbn; repeat split; done].
    destruct (getattr_meta m f_size); [|cbn; repeat split; done].
    project. rewrite update_last_app.
    cbn. repeat split; try done. intros _ _. by exists opened, m.
Qed.

Lemma after_rewrite_frame (component : Path) (h : TSKFile) (rt : Runtime)
    (init : Pathspec.t) (l : Path) :
  pathspec h = init ++ [l] ->
  exists new,
    io_trace (runtime (after_rewrite component (mkState h rt)).2)
    = io_trace rt ++ new /\
    forallb (constructor_event component (path l)) new = true /\
    tsk_raw_device (self (after_rewrite component (mkState h rt)).2)
    = tsk_raw_device h /\
    (is_raise (after_rewrite component (mkState h rt)).1 = true ->
     pathspec (self (after_rewrite component (mkState h rt)).2)
     = init ++ [l]) /\
    (HasField_inode component = true ->
     pathspec (self (after_rewrite component (mkState h rt)).2)
     = init ++ [l]) /\
    ((after_rewrite component (mkState h rt)).1 = Ok tt ->
     HasField_inode component = false ->
     exists f m,
       fd (self (after_rewrite component (mkState h rt)).2) = Some f /\
       info_meta f = Some m /\
       pathspec (self (after_rewrite component (mkState h rt)).2)
       = init ++ [set_inode (meta_addr m) l]).
Proof.
  intros Hps. unfold after_rewrite.
  cbv beta iota delta [bind gets ret raise]. project.
  destruct (tsk_raw_device h) as [raw|] eqn:Hraw.
  2:{ exists []. rewrite app_nil_r. project. repeat split; done. }
  destruct (cached_filesystem_frame raw (fd_hash_of raw) h rt)
    as (fsys & cache' & new1 & Hstate & Hevents & _).
  destruct (cached_filesystem raw (fd_hash_of raw) (mkState h rt))
    as [[[]|e] s2]; cbn [snd] in Hstate; subst s2.
  - destruct (open_entry_frame component
                (mkTSKFile (base_fd h) (pathspec h) (tsk_raw_device h)
                   (tsk_path h) fsys (fd h) (size h) (offset h) (vfs_path h))
                (mkRuntime cache' (clock rt) (io_trace rt ++ new1))
                init l Hps)
      as (new2 & Hrt & Hev2 & Hdev & Hfail & Hino & Hname).
    exists (new1 ++ new2).
    split; [rewrite Hrt; project; by rewrite app_assoc|].
    split; [by rewrite forallb_app, Hevents, Hev2|].
    split; [by rewrite Hdev|].
    split; [exact Hfail|]. split; [exact Hino|exact Hname].
  - exists new1. project. rewrite Hevents, Hraw. repeat split; done.
Qed.

(** A constructed handler has a non-empty address. *)
Lemma constructed_address_nonempty (base : option VFSHandler)
    (component : Path) (rt : Runtime) :
  (TSKFile_construct base component rt).1.1 = Ok tt ->
  pathspec (TSKFile_construct base component rt).1.2 <> [].
Proof.
  unfold TSKFile_construct.
  destruct (TSKFile_init base component (mkState TSKFile_new rt))
    as [res s] eqn:Hinit.
  cbn [fst snd]. intros ->.
  unfold TSKFile_init in Hinit.
  cbv beta iota delta [bind] in Hinit.
  destruct (VFSHandler_init base _) as [[[]|] s0]; [|discriminate].
  destruct (chain_on_base base component s0) as [[[]|] [h1 rt1]];
    [|discriminate].
  unfold gets, lift in Hinit. cbn [self] in Hinit.
  destruct (Pathspec.last (pathspec h1)) as [last|] eqn:Hlast;
    [|discriminate].
  destruct (exists_last (l := pathspec h1)) as (init & l & Hps).
  { intros Hnil. by rewrite Hnil in Hlast. }
  unfold self_pathspec_update in Hinit.
  cbv beta iota delta [modify bind gets lift on_self set_tsk_path
                       set_pathspec] in Hinit.
  cbn [self runtime base_fd pathspec tsk_raw_device tsk_path filesystem fd
       size offset vfs_path] in Hinit.
  rewrite Hps, update_last_app in Hinit.
  cbv beta iota in Hinit.
  match type of Hinit with
  | context [match tsk_raw_device ?h with _ => _ end ?st] =>
      assert (Hrest : after_rewrite component (mkState h (runtime st))
                      = (Ok tt, s)) by exact Hinit;
      destruct (after_rewrite_frame component h (runtime st) init
                  (set_path_options CASE_LITERAL l) eq_refl)
        as (new & _ & _ & _ & _ & Hino & Hname)
  end.
  rewrite Hrest in Hino, Hname. cbn [fst snd] in Hino, Hname.
  destruct (HasField_inode component).
  - rewrite Hino; [|done]. by destruct init.
  - destruct Hname as (f & m & _ & _ & ->); [done..|]. by destruct init.
Qed.

Lemma construct_frame (base : VFSHandler) (component : Path) (rt : Runtime)
    (h1 : TSKFile) (init : Pathspec.t) (l : Path) :
  TSKFile_init (Some base) component (mkState TSKFile_new rt)
  = after_rewrite component (mkState h1 rt) ->
  pathspec h1 = init ++ [l] ->
  exists new,
    io_trace (TSKFile_construct (Some base) component rt).2
    = io_trace rt ++ new /\
    forallb (constructor_event component (path l)) new = true /\
    tsk_raw_device (TSKFile_construct (Some base) component rt).1.2
    = tsk_raw_device h1 /\
    (is_raise (TSKFile_construct (Some base) component rt).1.1 = true ->
     pathspec (TSKFile_construct (Some base) component rt).1.2
     = init ++ [l]) /\
    (HasField_inode component = true ->
     pathspec (TSKFile_construct (Some base) component rt).1.2
     = init ++ [l]) /\
    ((TSKFile_construct (Some base) component rt).1.1 = Ok tt ->
     HasField_inode component = false ->
     exists f m,
       fd (TSKFile_construct (Some base) component rt).1.2 = Some f /\
       info_meta f = Some m /\
       pathspec (TSKFile_construct (Some base) component rt).1.2
       = init ++ [set_inode (meta_addr m) l]).
Proof.
  intros Hinit Hps. unfold TSKFile_construct. rewrite Hinit.
  destruct (after_rewrite_frame component h1 rt init l Hps)
    as (new & Htrace & Hevents & Hdev & Hfail & Hino & Hname).
  destruct (after_rewrite component (mkState h1 rt)) as [res s].
  cbn [fst snd] in *. by exists new.
Qed.

Lemma constructor_event_lookup (component : Path) (looked_up p : string)
    (new : list io_event) :
  forallb (constructor_event component looked_up) new = true ->
  EvOpen p ∈ new ->
  p = looked_up /\ HasField_inode component = false.
Proof.
  intros Hall Hin. apply list_elem_of_In in Hin.
  rewrite forallb_forall in Hall. specialize (Hall _ Hin).
  cbn in Hall. apply andb_true_iff in Hall as [Hno Heq].
  apply String.eqb_eq in Heq. by destruct (HasField_inode component).
Qed.

Lemma constructor_event_no_resolution (component : Path) (looked_up p : string)
    (new : list io_event) :
  forallb (constructor_event component looked_up) new = true ->
  EvGetRawDevice p ∉ new.
Proof.
  intros Hall Hin. apply list_elem_of_In in Hin.
  rewrite forallb_forall in Hall. by specialize (Hall _ Hin).
Qed.

Lemma last_Ok_inv (ps : Pathspec.t) (c : Path) :
  Pathspec.last ps = Ok c -> ps = removelast ps ++ [c].
Proof.
  destruct ps as [|a ps]; [discriminate|].
  destruct (nonempty_snoc (a :: ps)) as (init & c' & ->); [done|].
  rewrite last_app, removelast_last. by intros [= ->].
Qed.

(** C6: a handler constructed on a base that is a directory handler of this
    driver holds the raw device of the base, has resolved no raw device, and
    has an address as long as the address of the base: the last component
    [c] of the base is replaced by the new component with its path set to
    [JoinPath (path c) (path component)] (and its case option set to
    literal). *)
Theorem chained_open_keeps_address_length (hb : TSKFile) (component : Path)
    (rt : Runtime) (h' : TSKFile) (rt' : Runtime) :
  IsDirectory hb = Ok true ->
  TSKFile_construct (Some (TSKHandler hb)) component rt = (Ok tt, h', rt') ->
  tsk_raw_device h' = tsk_raw_device hb /\
  (exists new, io_trace rt' = io_trace rt ++ new /\
               forall p, EvGetRawDevice p ∉ new) /\
  List.length (pathspec h') = List.length (pathspec hb) /\
  exists init c l',
    pathspec hb = init ++ [c] /\
    pathspec h' = init ++ [l'] /\
    path l' = JoinPath (path c) (path component) /\
    pathtype l' = pathtype component /\
    ntfs_type l' = ntfs_type component /\
    ntfs_id l' = ntfs_id component /\
    path_options l' = CASE_LITERAL /\
    (HasField_inode component = true -> inode l' = inode component).
Proof.
  intros Hdir Hconstruct.
  destruct (pathspec hb) as [|a ps] eqn:Hps.
  { pose proof (TSKFile_init_on_empty_address hb component rt Hdir Hps) as He.
    unfold TSKFile_construct in Hconstruct.
    destruct (TSKFile_init _ _ _) as [res s]. cbn [fst] in He.
    injection Hconstruct as -> _ _. discriminate. }
  destruct (nonempty_snoc (a :: ps)) as (init & c & Hsnoc); [done|].
  rewrite Hsnoc in *.
  destruct (construct_frame (TSKHandler hb) component rt _ init
              (joined_component c component)
              (TSKFile_init_on_directory hb component init c rt Hdir Hps)
              eq_refl)
    as (new & Htrace & Hevents & Hdev & _ & Hino & Hname).
  rewrite Hconstruct in *. cbn [fst snd tsk_raw_device] in *.
  split; [exact Hdev|]. split.
  { exists new. split; [exact Htrace|]. intros p.
    by eapply constructor_event_no_resolution. }
  assert (Haddr : exists l',
    pathspec h' = init ++ [l'] /\
    path l' = JoinPath (path c) (path component) /\
    pathtype l' = pathtype component /\
    ntfs_type l' = ntfs_type component /\
    ntfs_id l' = ntfs_id component /\
    path_options l' = CASE_LITERAL /\
    (HasField_inode component = true -> inode l' = inode component)).
  { destruct (HasField_inode component) eqn:Hfield.
    - exists (joined_component c component).
      split; [by apply Hino|]. by repeat split.
    - destruct Hname as (f & m & _ & _ & Haddr); [done..|].
      exists (set_inode (meta_addr m) (joined_component c component)).
      split; [exact Haddr|]. by repeat split. }
  destruct Haddr as (l' & Haddr & Hl').
  split; [by rewrite Haddr, !length_app|].
  by exists init, c, l'.
Qed.

End Constructor_properties.

(** [report.txt] opened below the handler of [/docs]: two components before
    and after. *)
Lemma chained_open_witness :
  IsDirectory Handles.docs_handle = Ok true /\
  @TSKFile_construct Example.collaborators
     (Some (TSKHandler Handles.docs_handle))
     (Example.tsk_component "report.txt" None) Handles.runtime1
  = (Ok tt, Handles.report_handle,
     log (EvOpen "/docs/report.txt") Handles.runtime1) /\
  tsk_raw_device Handles.report_handle = tsk_raw_device Handles.docs_handle /\
  List.length (pathspec Handles.report_handle)
  = List.length (pathspec Handles.docs_handle).
Proof.
  assert (Hc : @TSKFile_construct Example.collaborators
                 (Some (TSKHandler Handles.docs_handle))
                 (Example.tsk_component "report.txt" None) Handles.runtime1
               = (Ok tt, Handles.report_handle,
                  log (EvOpen "/docs/report.txt") Handles.runtime1))
    by (vm_compute; reflexivity).
  destruct (@chained_open_keeps_address_length Example.collaborators
              Handles.docs_handle (Example.tsk_component "report.txt" None)
              Handles.runtime1 Handles.report_handle _ eq_refl Hc)
    as (Hdev & _ & Hlen & _).
  split; [reflexivity|]. split; [exact Hc|]. split; [exact Hdev|exact Hlen].
Defined.


(** * Further properties *)

(** ** GetAttribute *)

Lemma GetAttribute_loop_Some (attrs : list TSK_FS_ATTR) (type id : Z)
    (a : TSK_FS_ATTR) :
  GetAttribute_loop attrs type id = Some a <->
  exists before after,
    attrs = before ++ a :: after /\
    attribute_matches type id a = true /\
    forallb (fun b => negb (attribute_matches type id b)) before = true.
Proof.
  unfold attribute_matches. split.
  - induction attrs as [|b attrs IH]; [discriminate|]. cbn [GetAttribute_loop].
    destruct ((attr_type b =? type) && (attr_id b =? id)) eqn:Hb.
    + intros [= ->]. by exists [], attrs.
    + intros Hrest. destruct (IH Hrest) as (before & after & -> & Ha & Hnone).
      exists (b :: before), after. cbn [forallb]. by rewrite Hb.
  - intros (before & after & -> & Ha & Hnone).
    induction before as [|b before IH]; cbn [GetAttribute_loop app].
    + by rewrite Ha.
    + cbn [forallb] in Hnone. apply andb_true_iff in Hnone as [Hb Hnone].
      apply negb_true_iff in Hb. rewrite Hb. by apply IH.
Qed.

Lemma GetAttribute_loop_None (attrs : list TSK_FS_ATTR) (type id : Z) :
  GetAttribute_loop attrs type id = None <->
  forallb (fun b => negb (attribute_matches type id b)) attrs = true.
Proof.
  unfold attribute_matches.
  induction attrs as [|b attrs IH]; [done|]. cbn [GetAttribute_loop forallb].
  destruct ((attr_type b =? type) && (attr_id b =? id)); cbn [negb andb].
  - split; discriminate.
  - exact IH.
Qed.

(** [GetAttribute(type, id)] on a handle with a file returns the first
    attribute, in the order of the file, whose type and id both equal the
    arguments, and [None] exactly when no attribute has both; it never
    raises. *)
Theorem GetAttribute_returns_first_match (h : TSKFile) (f : File)
    (type id : Z) :
  fd h = Some f ->
  (exists found, GetAttribute h type id = Ok found) /\
  (forall a,
     GetAttribute h type id = Ok (Some a) <->
     exists before after,
       attributes f = before ++ a :: after /\
       attr_type a = type /\ attr_id a = id /\
       forall b, b ∈ before -> attr_type b <> type \/ attr_id b <> id) /\
  (GetAttribute h type id = Ok None <->
   forall b, b ∈ attributes f -> attr_type b <> type \/ attr_id b <> id).
Proof.
  intros Hfd. unfold GetAttribute, fd_of. rewrite Hfd. cbn [rbind].
  assert (Hno : forall l,
    forallb (fun b => negb (attribute_matches type id b)) l = true <->
    forall b, b ∈ l -> attr_type b <> type \/ attr_id b <> id).
  { intros l. rewrite forallb_forall. unfold attribute_matches.
    split; intros Hall b Hb.
    - apply list_elem_of_In in Hb. specialize (Hall b Hb).
      apply negb_true_iff, andb_false_iff in Hall.
      destruct Hall as [Ht|Hi]; [left|right]; by apply Z.eqb_neq.
    - apply list_elem_of_In in Hb. specialize (Hall b Hb).
      apply negb_true_iff, andb_false_iff.
      destruct Hall as [Ht|Hi]; [left|right]; by apply Z.eqb_neq. }
  split; [eauto|]. split.
  - intros a. split.
    + intros [= Hloop]. apply GetAttribute_loop_Some in Hloop
        as (before & after & Hsplit & Ha & Hnone).
      unfold attribute_matches in Ha. apply andb_true_iff in Ha as [Ht Hi].
      apply Z.eqb_eq in Ht, Hi. exists before, after.
      split; [exact Hsplit|]. split; [exact Ht|]. split; [exact Hi|].
      by apply Hno.
    + intros (before & after & Hsplit & Ht & Hi & Hnone). f_equal.
      apply GetAttribute_loop_Some. exists before, after.
      split; [exact Hsplit|]. split; [|by apply Hno].
      unfold attribute_matches. by rewrite Ht, Hi, !Z.eqb_refl.
  - split.
    + intros [= Hloop]. by apply Hno, GetAttribute_loop_None.
    + intros Hnone. f_equal. by apply GetAttribute_loop_None, Hno.
Qed.

(** ** ListNames *)

Section ListNames_properties.
Context `{Collaborators}.

Lemma ListNames_loop (children : list File) (names : list TSK_FS_NAME)
    (s : State) (out : list string) :
  map info_name children = map Some names ->
  for_each children (fun f =>
    (n <- lift (name_of f) ;;
     modify (fun st : State * list string =>
               (fst st, snd st ++ [name_name n])))%py) (s, out)
  = (Ok tt, (s, out ++ map name_name names)).
Proof.
  revert names out.
  induction children as [|f children IH]; intros [|n names] out Hnames;
    try discriminate.
  - cbn. by rewrite app_nil_r.
  - injection Hnames as Hn Hnames. cbn [for_each map].
    unfold bind at 1, bind at 1, lift, name_of. rewrite Hn.
    unfold modify at 1. cbn [fst snd].
    rewrite (IH names _ Hnames). by rewrite <- app_assoc.
Qed.

Lemma ListNames_loop_abort (before after : list File) (f : File)
    (names : list TSK_FS_NAME) (s : State) (out : list string) :
  map info_name before = map Some names ->
  info_name f = None ->
  for_each (before ++ f :: after) (fun f =>
    (n <- lift (name_of f) ;;
     modify (fun st : State * list string =>
               (fst st, snd st ++ [name_name n])))%py) (s, out)
  = (Raise AttributeError, (s, out ++ map name_name names)).
Proof.
  revert names out.
  induction before as [|b before IH]; intros [|n names] out Hnames Hf;
    try discriminate.
  - cbn [app for_each map]. unfold bind at 1, bind at 1, lift, name_of.
    rewrite Hf. by rewrite app_nil_r.
  - injection Hnames as Hn Hnames. cbn [app for_each map].
    unfold bind at 1, bind at 1, lift, name_of. rewrite Hn.
    unfold modify at 1. cbn [fst snd].
    rewrite (IH names _ Hnames Hf). by rewrite <- app_assoc.
Qed.

(** Iterating [ListNames] asks the file for its directory without looking
    at the type of the entry, and yields the name of every child in the
    order of the directory, [.], [..] and [$OrphanFiles] included.  A child
    without a name ends the iteration with an [AttributeError] after the
    names before it (nothing is skipped, unlike in [ListFiles]), and an
    exception of [as_directory] ends it before any name. *)
Theorem ListNames_yields_every_name (h : TSKFile) (d : File) (rt : Runtime) :
  fd h = Some d ->
  (forall children names,
     as_directory d = Ok children ->
     map info_name children = map Some names ->
     run_ListNames h rt
     = (map name_name names, Ok tt, log EvAsDirectory rt)) /\
  (forall before f after names,
     as_directory d = Ok (before ++ f :: after) ->
     map info_name before = map Some names ->
     info_name f = None ->
     run_ListNames h rt
     = (map name_name names, Raise AttributeError, log EvAsDirectory rt)) /\
  (forall e,
     as_directory d = Raise e ->
     run_ListNames h rt = ([], Raise e, log EvAsDirectory rt)).
Proof.
  intros Hfd.
  assert (Hstart : forall res,
    as_directory d = res ->
    run_ListNames h rt
    = match
        match res with
        | Ok children =>
            for_each children (fun f =>
              (n <- lift (name_of f) ;;
               modify (fun st : State * list string =>
                         (fst st, snd st ++ [name_name n])))%py)
              (mkState h (log EvAsDirectory rt), [])
        | Raise e => (Raise e, (mkState h (log EvAsDirectory rt), []))
        end
      with
      | (r, (s, out)) => (out, r, runtime s)
      end).
  { intros res Hres. unfold run_ListNames, ListNames.
    unfold bind at 1, gets. cbn [fst self]. unfold bind at 1, lift at 1, fd_of.
    rewrite Hfd. unfold bind at 1, call_as_directory, bind at 1, modify at 1.
    cbn [fst snd]. unfold lift at 1. rewrite Hres. by destruct res. }
  split; [|split].
  - intros children names Hdir Hnames. rewrite (Hstart _ Hdir).
    by rewrite (ListNames_loop _ _ _ _ Hnames).
  - intros before f after names Hdir Hnames Hf. rewrite (Hstart _ Hdir).
    by rewrite (ListNames_loop_abort _ _ _ _ _ _ Hnames Hf).
  - intros e Hdir. by rewrite (Hstart _ Hdir).
Qed.

End ListNames_properties.

(** ** What a handle can do *)

Section Handle_kinds.
Context `{Collaborators}.

Lemma IsDirectory_excludes_IsFile (h : TSKFile) :
  IsDirectory h = Ok true -> IsFile h = Ok false.
Proof.
  unfold IsDirectory, IsFile, fd_of, meta_of.
  destruct (fd h) as [f|]; cbn [rbind]; [|discriminate].
  destruct (info_meta f) as [m|]; cbn [rbind]; [|discriminate].
  intros [= Hdir]. apply Z.eqb_eq in Hdir. by rewrite Hdir.
Qed.

Lemma Read_Ok_is_file (h : TSKFile) (length : Z) (rt : Runtime)
    (data : list byte) (s : State) :
  Read length (mkState h rt) = (Ok data, s) -> IsFile h = Ok true.
Proof.
  unfold Read, bind, gets, lift. cbn [self].
  destruct (IsFile h) as [[|]|e]; [done| |discriminate].
  cbn [negb]. by destruct (Pathspec.last (pathspec h)).
Qed.

Lemma ListFiles_Ok_is_directory (h : TSKFile) (rt : Runtime)
    (out : list StatResponse) (rt' : Runtime) :
  run_ListFiles h rt = (out, Ok tt, rt') -> IsDirectory h = Ok true.
Proof.
  unfold run_ListFiles, ListFiles, bind, gets, lift. cbn [fst self].
  destruct (IsDirectory h) as [[|]|e]; [done| |discriminate].
  unfold fd_of, name_of. destruct (fd h) as [f|]; [|discriminate].
  by destruct (info_name f).
Qed.

(** No handle serves both as a file and as a directory: when one [Read] on
    it returns data, every iteration of [ListFiles] on it raises before it
    yields anything or asks the parser for a directory; and when one
    iteration of [ListFiles] runs to its end, every [Read] raises, leaving
    the handle and the runtime as they were. *)
Theorem readable_handle_is_not_listable (h : TSKFile) :
  (forall length rt data s,
     Read length (mkState h rt) = (Ok data, s) ->
     forall rt', exists e, run_ListFiles h rt' = ([], Raise e, rt')) /\
  (forall rt out rt',
     run_ListFiles h rt = (out, Ok tt, rt') ->
     forall length rt'', exists e,
       Read length (mkState h rt'') = (Raise e, mkState h rt'')).
Proof.
  split.
  - intros length rt data s Hread rt'.
    apply Read_Ok_is_file in Hread.
    unfold IsFile, fd_of, meta_of in Hread.
    unfold run_ListFiles, ListFiles, IsDirectory, bind, gets, lift, fd_of,
      meta_of, name_of.
    cbn [fst self].
    destruct (fd h) as [f|]; cbn [rbind] in *; [|discriminate].
    destruct (info_meta f) as [m|]; cbn [rbind] in *; [|discriminate].
    injection Hread as Hreg. apply Z.eqb_eq in Hreg. rewrite Hreg.
    cbn. destruct (info_name f); eauto.
  - intros rt out rt' Hlist length rt''.
    apply ListFiles_Ok_is_directory, IsDirectory_excludes_IsFile in Hlist.
    unfold Read, bind, gets, lift. cbn [self]. rewrite Hlist. cbn [negb].
    destruct (Pathspec.last (pathspec h)); eauto.
Qed.


(** Two responses for entries that share their metadata block agree on
    [st_ino], [st_nlink], [st_uid], [st_gid], [st_size] and the three
    times, whatever the handles, names and attributes; and when the second
    entry has no name (a file opened by inode), the [st_mode] of the first
    is that of the second merged with the bits of the first one's name
    type. *)
Theorem responses_agree_on_shared_metadata (h1 h2 : TSKFile) (f1 f2 : File)
    (m : TSK_FS_META) (a1 a2 : option TSK_FS_ATTR) (n1 n2 : option string)
    (r1 r2 : StatResponse) :
  info_meta f1 = Some m ->
  info_meta f2 = Some m ->
  MakeStatResponse h1 f1 a1 n1 = Ok r1 ->
  MakeStatResponse h2 f2 a2 n2 = Ok r2 ->
  st_ino r1 = st_ino r2 /\
  (forall a, a <> f_mode -> st_field a r1 = st_field a r2) /\
  (info_name f2 = None ->
   st_mode r1 =
     Z.lor (st_mode r2)
       match info_name f1 with
       | Some n => default 0 (FILE_TYPE_LOOKUP !! name_type n)
       | None => 0
       end).
Proof.
  intros Hm1 Hm2 Hr1 Hr2.
  destruct (MakeStatResponse_inv _ _ _ _ _ _ Hm1 Hr1) as (ps1 & _ & ->).
  destruct (MakeStatResponse_inv _ _ _ _ _ _ Hm2 Hr2) as (ps2 & _ & ->).
  split; [reflexivity|]. split; [intros a Ha; by destruct a|].
  intros Hn2. cbn [st_mode]. unfold name_type_bits, dict_get. rewrite Hn2.
  rewrite Z.lor_0_r.
  rewrite <- !Z.lor_assoc. f_equal. apply Z.lor_comm.
Qed.

End Handle_kinds.

(** ** Reading in a row *)

Lemma slice_app (data : list byte) (off a b : Z) :
  0 <= off -> 0 <= a -> 0 <= b ->
  slice data off a ++ slice data (off + a) b = slice data off (a + b).
Proof.
  intros Hoff Ha Hb. unfold slice.
  rewrite !Z2Nat.inj_add by lia.
  rewrite (Nat.add_comm (Z.to_nat off)), <- skipn_skipn.
  generalize (skipn (Z.to_nat off) data) as l.
  generalize (Z.to_nat a) as n. intros n.
  induction n as [|n IH]; intros l; [reflexivity|].
  destruct l as [|x l]; cbn [Nat.add firstn skipn app].
  - by rewrite firstn_nil.
  - f_equal. apply IH.
Qed.

Lemma set_offset_same (h : TSKFile) : set_offset (offset h) h = h.
Proof. by destruct h. Qed.

Section Reading_in_a_row.
Context `{Collaborators}.

(** One [Read] on a stream that holds [content]. *)
Lemma Read_on_stream (h : TSKFile) (f : File) (c : Path)
    (content : list byte) (length : Z) (rt : Runtime) :
  IsFile h = Ok true ->
  fd h = Some f ->
  Pathspec.last (pathspec h) = Ok c ->
  (forall off len, read_random f off len (ntfs_type c) (ntfs_id c)
                   = Ok (slice content off len)) ->
  0 <= offset h ->
  size h <= Z.of_nat (List.length content) ->
  exists rt',
    Read length (mkState h rt)
    = (Ok (slice content (offset h)
             (Z.max 0 (Z.min (size h - offset h) length))),
       mkState
         (set_offset (offset h + Z.max 0 (Z.min (size h - offset h) length)) h)
         rt').
Proof.
  intros Hfile Hfd Hlast Hstream Hoff Hsize.
  rewrite (Read_on_file _ _ _ Hfile). cbn zeta.
  destruct (Z.ltb_spec 0 (Z.min (size h - offset h) length)) as [Hpos|Hle].
  - unfold bind, try_except, lift, fd_of. rewrite Hfd, Hlast.
    unfold call_read_random, bind, modify, lift. rewrite Hstream.
    cbn [on_runtime on_self self runtime]. unfold ret.
    rewrite slice_length by lia.
    rewrite Z.max_r by lia. eauto.
  - rewrite Z.max_l by lia. rewrite Z.add_0_r, set_offset_same.
    exists rt. unfold slice. by cbn.
Qed.

(** Reads in a row on a stream that holds [content] return, joined, the
    bytes of [content] from the starting offset on, without a gap or an
    overlap: as many as the lengths add up to, and at most what is left up
    to the size; the offset ends that many bytes further.  *)
Theorem reads_in_a_row_concatenate (h : TSKFile) (f : File) (c : Path)
    (content : list byte) (lengths : list Z) (rt : Runtime) :
  IsFile h = Ok true ->
  fd h = Some f ->
  Pathspec.last (pathspec h) = Ok c ->
  (forall off len, read_random f off len (ntfs_type c) (ntfs_id c)
                   = Ok (slice content off len)) ->
  0 <= offset h ->
  size h <= Z.of_nat (List.length content) ->
  Forall (fun n => 0 <= n) lengths ->
  exists rt',
    Read_each lengths (mkState h rt)
    = (Ok (slice content (offset h)
             (Z.max 0 (Z.min (size h - offset h) (foldr Z.add 0 lengths)))),
       mkState
         (set_offset
            (offset h
             + Z.max 0 (Z.min (size h - offset h) (foldr Z.add 0 lengths)))
            h)
         rt').
Proof.
  intros Hfile Hfd Hlast Hstream Hoff Hsize Hlengths.
  revert h rt Hfile Hfd Hlast Hoff Hsize.
  induction Hlengths as [|n lengths Hn Hlengths IH];
    intros h rt Hfile Hfd Hlast Hoff Hsize.
  - exists rt. cbn [Read_each foldr]. unfold ret.
    replace (Z.max 0 (Z.min (size h - offset h) 0)) with 0 by lia.
    by rewrite Z.add_0_r, set_offset_same.
  - assert (Hsum : 0 <= foldr Z.add 0 lengths).
    { clear -Hlengths. induction Hlengths; cbn [foldr]; lia. }
    destruct (Read_on_stream h f c content n rt Hfile Hfd Hlast Hstream
                Hoff Hsize) as [rt1 Hread].
    set (n1 := Z.max 0 (Z.min (size h - offset h) n)) in *.
    destruct (IH (set_offset (offset h + n1) h) rt1) as [rt2 Hrest];
      [exact Hfile|exact Hfd|exact Hlast| |exact Hsize|].
    { cbn [offset set_offset]. lia. }
    cbn [offset set_offset size] in Hrest.
    exists rt2. cbn [Read_each foldr]. unfold bind at 1. rewrite Hread.
    unfold bind at 1. rewrite Hrest. unfold ret.
    rewrite slice_app by lia.
    replace (n1 + Z.max 0 (Z.min (size h - (offset h + n1))
                             (foldr Z.add 0 lengths)))
      with (Z.max 0 (Z.min (size h - offset h)
                       (n + foldr Z.add 0 lengths))) by lia.
    replace (offset h + n1
             + Z.max 0 (Z.min (size h - (offset h + n1))
                          (foldr Z.add 0 lengths)))
      with (offset h + Z.max 0 (Z.min (size h - offset h)
                                  (n + foldr Z.add 0 lengths))) by lia.
    by destruct h.
Qed.

End Reading_in_a_row.

(** ** What a constructed handler holds *)

Section Constructed_handlers.
Context `{Collaborators}.

Ltac project_state :=
  cbn [self runtime base_fd pathspec tsk_raw_device tsk_path filesystem fd
       size offset vfs_path DEVICE_CACHE clock io_trace fst snd].

Lemma getattr_meta_size (m : TSK_FS_META) (sz : Z) :
  getattr_meta m f_size = Ok sz <-> meta_size m = Some sz.
Proof.
  unfold getattr_meta. destruct (meta_size m); split; congruence.
Qed.

(** The cache block, when it succeeds: the session it gives the handler is
    the one the cache then holds for the key. *)
Lemma cached_filesystem_Ok (raw : VFSHandler) (key : string) (h : TSKFile)
    (rt : Runtime) (s' : State) :
  cached_filesystem raw key (mkState h rt) = (Ok tt, s') ->
  exists session stamp new,
    self s' = set_filesystem session h /\
    DEVICE_CACHE (runtime s') !! key = Some (stamp, session) /\
    clock (runtime s') = clock rt /\
    io_trace (runtime s') = io_trace rt ++ new /\
    forall c p, forallb (constructor_event c p) new = true.
Proof.
  destruct h, rt.
  unfold cached_filesystem, try_except, cache_Get, TimeBasedCache.Get,
    cache_Put, TimeBasedCache.Put, call_FS_Info, set_filesystem, set_cache,
    log.
  cbv beta iota delta [bind ret lift gets modify on_self on_runtime raise].
  project_state.
  destruct (_ !! key) as [[stamp v]|] eqn:Hlookup;
    [destruct (Z.ltb_spec (clock0 - stamp) max_age) as [Hlive|Hdead]|];
    cbn [is_KeyError].
  - intros [= <-]. project_state. exists v, stamp, [].
    by rewrite app_nil_r.
  - destruct (FS_Info _ _); [|discriminate]. intros [= <-]. project_state.
    eexists _, clock0, [_]. by rewrite lookup_insert_eq.
  - destruct (FS_Info _ _); [|discriminate]. intros [= <-]. project_state.
    eexists _, clock0, [_]. by rewrite lookup_insert_eq.
Qed.

(** The lookup block, when it succeeds. *)
Lemma open_entry_Ok (component : Path) (h : TSKFile) (rt : Runtime)
    (init : Pathspec.t) (l : Path) (s' : State) :
  pathspec h = init ++ [l] ->
  open_entry component (mkState h rt) = (Ok tt, s') ->
  exists session opened sz ps,
    filesystem h = Some session /\
    self s' = mkTSKFile (base_fd h) ps (tsk_raw_device h) (tsk_path h)
                (Some session) (Some opened) sz (offset h) (vfs_path h) /\
    DEVICE_CACHE (runtime s') = DEVICE_CACHE rt /\
    clock (runtime s') = clock rt /\
    (HasField_inode component = true ->
     fs_open_meta (fs session) (get_inode component) = Ok opened /\
     ps = init ++ [l] /\
     match GetAttribute_loop (attributes opened) (ntfs_type component)
             (ntfs_id component) with
     | Some a => sz = attr_size a
     | None => exists m, info_meta opened = Some m /\ meta_size m = Some sz
     end) /\
    (HasField_inode component = false ->
     fs_open (fs session) (path l) = Ok opened /\
     exists m, info_meta opened = Some m /\ meta_size m = Some sz /\
               ps = init ++ [set_inode (meta_addr m) l]).
Proof.
  intros Hps. destruct h, rt. cbn [pathspec] in Hps. subst.
  unfold open_entry, self_filesystem, call_open_meta, call_open,
    self_pathspec_update, GetAttribute, fd_of, meta_of, set_fd, set_size,
    log.
  cbv beta iota delta [bind ret lift gets modify on_self on_runtime raise
                       rbind set_pathspec].
  project_state.
  destruct filesystem0 as [session|]; [|discriminate].
  destruct (HasField_inode component) eqn:Hinode; project_state.
  - destruct (fs_open_meta _ _) as [opened|e] eqn:Hopen; project_state;
      [|discriminate].
    destruct (GetAttribute_loop _ _ _) as [a|] eqn:Hattr.
    + intros [= <-]. project_state. eexists _, _, _, _.
      split; [reflexivity|]. split; [reflexivity|]. split; [reflexivity|].
      split; [reflexivity|]. split; [|done]. intros _. by rewrite Hattr.
    + destruct (info_meta opened) as [m|] eqn:Hm; [|discriminate].
      destruct (getattr_meta m f_size) as [sz|] eqn:Hsz; [|discriminate].
      intros [= <-]. project_state. eexists _, _, _, _.
      split; [reflexivity|]. split; [reflexivity|]. split; [reflexivity|].
      split; [reflexivity|]. split; [|done]. intros _. rewrite Hattr.
      split; [done|]. split; [done|]. exists m. by rewrite <- getattr_meta_size.
  - rewrite last_app.
    destruct (fs_open _ _) as [opened|e] eqn:Hopen; project_state;
      [|discriminate].
    destruct (info_meta opened) as [m|] eqn:Hm; [|discriminate].
    destruct (getattr_meta m f_size) as [sz|] eqn:Hsz; [|discriminate].
    project_state. rewrite update_last_app.
    intros [= <-]. project_state. eexists _, _, _, _.
    split; [reflexivity|]. split; [reflexivity|]. split; [reflexivity|].
    split; [reflexivity|]. split; [done|]. intros _. split; [done|]. exists m.
    by rewrite <- getattr_meta_size.
Qed.

(** The constructor after the rewrite of the address, when it succeeds. *)
Lemma after_rewrite_Ok (component : Path) (h : TSKFile) (rt : Runtime)
    (init : Pathspec.t) (l : Path) (s' : State) :
  pathspec h = init ++ [l] ->
  after_rewrite component (mkState h rt) = (Ok tt, s') ->
  exists raw session stamp opened sz ps,
    tsk_raw_device h = Some raw /\
    self s' = mkTSKFile (base_fd h) ps (Some raw) (tsk_path h)
                (Some session) (Some opened) sz (offset h) (vfs_path h) /\
    DEVICE_CACHE (runtime s') !! fd_hash_of raw = Some (stamp, session) /\
    clock (runtime s') = clock rt /\
    (HasField_inode component = true ->
     fs_open_meta (fs session) (get_inode component) = Ok opened /\
     ps = init ++ [l] /\
     match GetAttribute_loop (attributes opened) (ntfs_type component)
             (ntfs_id component) with
     | Some a => sz = attr_size a
     | None => exists m, info_meta opened = Some m /\ meta_size m = Some sz
     end) /\
    (HasField_inode component = false ->
     fs_open (fs session) (path l) = Ok opened /\
     exists m, info_meta opened = Some m /\ meta_size m = Some sz /\
               ps = init ++ [set_inode (meta_addr m) l]).
Proof.
  intros Hps. unfold after_rewrite.
  cbv beta iota delta [bind gets ret raise]. project_state.
  destruct (tsk_raw_device h) as [raw|] eqn:Hraw; [|discriminate].
  destruct (cached_filesystem raw (fd_hash_of raw) (mkState h rt))
    as [[[]|e] [h2 rt2]] eqn:Hcache; [|discriminate].
  destruct (cached_filesystem_Ok _ _ _ _ _ Hcache)
    as (session & stamp & new & Hself & Hcached & Hclock & _).
  cbn [self runtime] in Hself, Hcached, Hclock. subst h2.
  intros Hopen.
  destruct (open_entry_Ok component (set_filesystem session h) rt2 init l s'
              Hps Hopen)
    as (session' & opened & sz & ps & Hfs & Hself & Hsame & Hclock' & Hino
        & Hname).
  cbn [filesystem set_filesystem] in Hfs. injection Hfs as <-.
  cbn [set_filesystem base_fd pathspec tsk_raw_device tsk_path fd size
       offset vfs_path] in Hself.
  exists raw, session, stamp, opened, sz, ps.
  rewrite Hraw in Hself. split; [reflexivity|]. split; [exact Hself|].
  split; [by rewrite Hsame|]. split; [by rewrite Hclock'|].
  split; [exact Hino|exact Hname].
Qed.

Lemma set_path_options_same (c : Path) :
  set_path_options (path_options c) c = c.
Proof. by destruct c. Qed.

(** An accepted base: the object the constructor has built when it reaches
    the cache block. *)
Lemma constructor_reaches_lookup (base : VFSHandler) (component : Path)
    (rt : Runtime) (address : Pathspec.t) :
  rewritten_address base component = Some address ->
  exists init l,
    address = init ++ [l] /\
    path_options l = CASE_LITERAL /\
    inode l = inode component /\
    TSKFile_init (Some base) component (mkState TSKFile_new rt)
    = after_rewrite component
        (mkState
           (mkTSKFile (Some base) address (raw_device_on base) (path l)
              None None 0 0 "/")
           rt).
Proof.
  intros Haddress. unfold rewritten_address in Haddress.
  destruct base as [hb|o]; cbn [handler_IsDirectory] in Haddress.
  - destruct (IsDirectory hb) as [[|]|e] eqn:Hdir; [| |discriminate].
    + destruct (Pathspec.last (pathspec hb)) as [c|e] eqn:Hlast;
        [|discriminate].
      injection Haddress as <-. apply last_Ok_inv in Hlast.
      exists (removelast (pathspec hb)), (joined_component c component).
      split; [reflexivity|]. split; [reflexivity|]. split; [reflexivity|].
      rewrite (TSKFile_init_on_directory hb component _ c rt Hdir Hlast).
      unfold raw_device_on. by rewrite Hdir.
    + injection Haddress as <-.
      exists (pathspec hb), (set_path_options CASE_LITERAL component).
      split; [reflexivity|]. split; [reflexivity|]. split; [reflexivity|].
      rewrite (TSKFile_init_on_file (TSKHandler hb) component rt Hdir).
      unfold raw_device_on. by rewrite Hdir.
  - destruct (o_IsDirectory o) eqn:Hdir; [discriminate|].
    injection Haddress as <-.
    exists (o_pathspec o), (set_path_options CASE_LITERAL component).
    split; [reflexivity|]. split; [reflexivity|]. split; [reflexivity|].
    rewrite (TSKFile_init_on_file (FileHandler o) component rt);
      [reflexivity|]. cbn. by rewrite Hdir.
Qed.

(** A successful construction rewrote an address. *)
Lemma constructed_rewrote_address (base : VFSHandler) (component : Path)
    (rt : Runtime) :
  (TSKFile_construct (Some base) component rt).1.1 = Ok tt ->
  exists address, rewritten_address base component = Some address.
Proof.
  unfold rewritten_address, TSKFile_construct.
  destruct (TSKFile_init (Some base) component (mkState TSKFile_new rt))
    as [res s] eqn:Hinit. cbn [fst]. intros ->.
  destruct base as [hb|o]; cbn [handler_IsDirectory].
  - destruct (IsDirectory hb) as [[|]|e] eqn:Hdir; [|eauto|].
    + destruct (Pathspec.last (pathspec hb)) as [c|e] eqn:Hlast; [eauto|].
      apply last_raises in Hlast as [_ Hnil].
      pose proof (TSKFile_init_on_empty_address hb component rt Hdir Hnil)
        as Hfail.
      by rewrite Hinit in Hfail.
    + exfalso. revert Hinit.
      unfold TSKFile_init, VFSHandler_init, chain_on_base.
      cbn [isinstance_TSKFile handler_IsDirectory]. rewrite Hdir.
      cbv beta iota delta [bind ret lift gets modify]. discriminate.
  - destruct (o_IsDirectory o) eqn:Hdir; [|eauto].
    pose proof (TSKFile_init_refused (FileHandler o) component rt eq_refl)
      as Hfail.
    cbn [handler_IsDirectory] in Hfail. rewrite Hdir in Hfail.
    specialize (Hfail eq_refl). by rewrite Hinit in Hfail.
Qed.

(** What a successful construction leaves in the object and in the cache. *)
Lemma construct_Ok (base : VFSHandler) (component : Path) (rt : Runtime)
    (h' : TSKFile) (rt' : Runtime) :
  TSKFile_construct (Some base) component rt = (Ok tt, h', rt') ->
  exists init l raw session stamp opened sz ps,
    rewritten_address base component = Some (init ++ [l]) /\
    path_options l = CASE_LITERAL /\
    inode l = inode component /\
    raw_device_on base = Some raw /\
    h' = mkTSKFile (Some base) ps (Some raw) (path l) (Some session)
           (Some opened) sz 0 "/" /\
    DEVICE_CACHE rt' !! fd_hash_of raw = Some (stamp, session) /\
    clock rt' = clock rt /\
    (HasField_inode component = true ->
     fs_open_meta (fs session) (get_inode component) = Ok opened /\
     ps = init ++ [l] /\
     match GetAttribute_loop (attributes opened) (ntfs_type component)
             (ntfs_id component) with
     | Some a => sz = attr_size a
     | None => exists m, info_meta opened = Some m /\ meta_size m = Some sz
     end) /\
    (HasField_inode component = false ->
     fs_open (fs session) (path l) = Ok opened /\
     exists m, info_meta opened = Some m /\ meta_size m = Some sz /\
               ps = init ++ [set_inode (meta_addr m) l]).
Proof.
  intros Hconstruct.
  destruct (constructed_rewrote_address base component rt) as [address Ha].
  { by rewrite Hconstruct. }
  destruct (constructor_reaches_lookup base component rt address Ha)
    as (init & l & -> & Hliteral & Hinode & Hinit).
  unfold TSKFile_construct in Hconstruct. rewrite Hinit in Hconstruct.
  destruct (after_rewrite component _) as [res s'] eqn:Hafter.
  injection Hconstruct as -> <- <-.
  match type of Hafter with
  | after_rewrite _ (mkState ?h1 _) = _ =>
      destruct (after_rewrite_Ok component h1 rt init l s' eq_refl Hafter)
        as (raw & session & stamp & opened & sz & ps & Hraw & Hself & Hcache
            & Hclock & Hino & Hname)
  end.
  project_state. cbn [tsk_raw_device] in Hraw.
  exists init, l, raw, session, stamp, opened, sz, ps.
  by rewrite Hself.
Qed.

End Constructed_handlers.

(** ** The address and the lookup *)

Section Address_before_lookup.
Context `{Collaborators}.




End Address_before_lookup.



(** ** The device cache under concurrent opens *)

Section Concurrency.
Context `{Collaborators}.

(** One thread running its three steps with nothing in between does what
    the cache block of the constructor does. *)
Lemma open_steps_refine (raw : VFSHandler) (h : TSKFile) (r : Runtime) :
  exists res r',
    (let '(pc1, r1) := open_step raw AtGet r in
     let '(pc2, r2) := open_step raw pc1 r1 in
     open_step raw pc2 r2) = (Finished res, r') /\
    cached_filesystem raw (fd_hash_of raw) (mkState h r)
    = match res with
      | Ok cached => (Ok tt, mkState (set_filesystem cached h) r')
      | Raise e => (Raise e, mkState h r')
      end.
Proof.
  unfold cached_filesystem, try_except, cache_Get, cache_Put, call_FS_Info,
    open_step.
  cbv beta iota delta [bind ret lift gets modify on_self on_runtime raise].
  cbn [self runtime].
  destruct (TimeBasedCache.Get _ _ _ _) as [[cached|e] c] eqn:Hget.
  - eexists _, _. split; reflexivity.
  - assert (e = KeyError) as ->.
    { unfold TimeBasedCache.Get in Hget.
      destruct (_ !! _) as [[stamp v]|]; [destruct (_ <? _)|]; congruence. }
    cbn [is_KeyError].
    destruct (FS_Info _ _) as [parsed|e]; eexists _, _; split; reflexivity.
Qed.








End Concurrency.



Section Constructed_handler_properties.
Context `{Collaborators}.

(** A handler opened by path (a component without inode) has a file with a
    metadata block, the size of that block, offset 0, and an address whose
    last component is case-literal, carries the path that was looked up and
    the inode that was found; so [IsDirectory] and [IsFile] answer without
    raising, and [Stat] returns the handler's own address and that inode. *)
Theorem open_by_path_then_Stat (base : VFSHandler) (component : Path)
    (rt : Runtime) (h' : TSKFile) (rt' : Runtime) :
  HasField_inode component = false ->
  TSKFile_construct (Some base) component rt = (Ok tt, h', rt') ->
  exists session opened m l r,
    filesystem h' = Some session /\
    fs_open (fs session) (tsk_path h') = Ok opened /\
    fd h' = Some opened /\
    info_meta opened = Some m /\
    meta_size m = Some (size h') /\
    offset h' = 0 /\
    Pathspec.last (pathspec h') = Ok l /\
    path l = tsk_path h' /\
    path_options l = CASE_LITERAL /\
    inode l = Some (meta_addr m) /\
    IsDirectory h' = Ok (meta_type m =? pytsk3.TSK_FS_META_TYPE_DIR) /\
    IsFile h' = Ok (meta_type m =? pytsk3.TSK_FS_META_TYPE_REG) /\
    Stat h' = Ok r /\
    st_pathspec r = pathspec h' /\
    st_ino r = meta_addr m.
Proof.
  intros Hfield Hconstruct.
  destruct (construct_Ok base component rt h' rt' Hconstruct)
    as (init & l & raw & session & stamp & opened & sz & ps & _ & Hliteral
        & _ & _ & -> & _ & _ & _ & Hname).
  destruct (Hname Hfield) as (Hopen & m & Hm & Hsize & ->).
  exists session, opened, m, (set_inode (meta_addr m) l).
  eexists.
  cbn [filesystem fd size offset pathspec tsk_path].
  split; [reflexivity|]. split; [exact Hopen|]. split; [reflexivity|].
  split; [exact Hm|]. split; [exact Hsize|]. split; [reflexivity|].
  split; [apply last_app|]. split; [reflexivity|]. split; [exact Hliteral|].
  split; [reflexivity|].
  unfold IsDirectory, IsFile, Stat, fd_of, meta_of. cbn [fd rbind].
  rewrite Hm. cbn [rbind].
  split; [reflexivity|]. split; [reflexivity|].
  split; [by apply MakeStatResponse_snoc with (m := m)|].
  split; reflexivity.
Qed.

(** A handler opened by inode has the file [open_meta] returned for that
    inode and exactly the rewritten address; its size is the size of the
    first attribute with the type and id of the component when the file has
    one, and else the size of the metadata block. *)
Theorem open_by_inode_resolves_size (base : VFSHandler) (component : Path)
    (rt : Runtime) (h' : TSKFile) (rt' : Runtime) :
  HasField_inode component = true ->
  TSKFile_construct (Some base) component rt = (Ok tt, h', rt') ->
  exists session opened,
    filesystem h' = Some session /\
    fs_open_meta (fs session) (get_inode component) = Ok opened /\
    fd h' = Some opened /\
    offset h' = 0 /\
    rewritten_address base component = Some (pathspec h') /\
    (forall a,
       GetAttribute h' (ntfs_type component) (ntfs_id component)
       = Ok (Some a) ->
       size h' = attr_size a) /\
    (GetAttribute h' (ntfs_type component) (ntfs_id component) = Ok None ->
     exists m, info_meta opened = Some m /\ meta_size m = Some (size h')).
Proof.
  intros Hfield Hconstruct.
  destruct (construct_Ok base component rt h' rt' Hconstruct)
    as (init & l & raw & session & stamp & opened & sz & ps & Haddress & _
        & _ & _ & -> & _ & _ & Hino & _).
  destruct (Hino Hfield) as (Hopen & -> & Hsize).
  exists session, opened. cbn [filesystem fd size offset pathspec].
  split; [reflexivity|]. split; [exact Hopen|]. split; [reflexivity|].
  split; [reflexivity|]. split; [exact Haddress|].
  unfold GetAttribute, fd_of. cbn [fd rbind].
  split.
  - intros a [= Ha]. by rewrite Ha in Hsize.
  - intros [= Hnone]. by rewrite Hnone in Hsize.
Qed.

(** However long the chain of directory handlers a handler was constructed
    through, its raw device is a handler that is not a directory, and its
    address is the address of that raw device followed by exactly one
    component, which is case-literal and holds the path the handler opened;
    the handler has its file and its filesystem, and its offset is 0. *)
Theorem constructed_handler_is_rooted (h : TSKFile) :
  constructed h ->
  exists raw c opened session,
    tsk_raw_device h = Some raw /\
    handler_IsDirectory raw = Ok false /\
    pathspec h = handler_pathspec raw ++ [c] /\
    path_options c = CASE_LITERAL /\
    tsk_path h = path c /\
    fd h = Some opened /\
    filesystem h = Some session /\
    offset h = 0.
Proof.
  assert (Hlast : forall base component rt h rt' raw0,
    TSKFile_construct (Some base) component rt = (Ok tt, h, rt') ->
    (forall init l, rewritten_address base component = Some (init ++ [l]) ->
                    raw_device_on base = Some raw0 /\
                    init = handler_pathspec raw0 /\
                    handler_IsDirectory raw0 = Ok false) ->
    exists raw c opened session,
      tsk_raw_device h = Some raw /\
      handler_IsDirectory raw = Ok false /\
      pathspec h = handler_pathspec raw ++ [c] /\
      path_options c = CASE_LITERAL /\
      tsk_path h = path c /\
      fd h = Some opened /\
      filesystem h = Some session /\
      offset h = 0).
  { intros base component rt h0 rt' raw0 Hconstruct Hbase.
    destruct (construct_Ok base component rt h0 rt' Hconstruct)
      as (init & l & raw & session & stamp & opened & sz & ps & Haddress
          & Hliteral & _ & Hraw & -> & _ & _ & Hino & Hname).
    destruct (Hbase init l Haddress) as (Hraw' & -> & Hfile).
    rewrite Hraw' in Hraw. injection Hraw as <-.
    destruct (HasField_inode component).
    - destruct (Hino eq_refl) as (_ & -> & _).
      exists raw0, l, opened, session. by repeat split.
    - destruct (Hname eq_refl) as (_ & m & _ & _ & ->).
      exists raw0, (set_inode (meta_addr m) l), opened, session.
      by repeat split. }
  induction 1 as [o component rt h rt' Hconstruct
                 |hb component rt h rt' Hbase IH Hconstruct].
  - apply (Hlast _ _ _ _ _ (FileHandler o) Hconstruct).
    intros init l Ha. unfold rewritten_address in Ha.
    cbn [handler_IsDirectory handler_pathspec] in Ha.
    destruct (o_IsDirectory o) eqn:Hdir; [discriminate|].
    injection Ha as Ha. apply app_inj_tail in Ha as [<- _].
    cbn [raw_device_on handler_IsDirectory handler_pathspec].
    by rewrite Hdir.
  - destruct IH as (raw0 & c0 & _ & _ & Hraw0 & Hfile0 & Hps0 & _).
    destruct (IsDirectory hb) as [[|]|e] eqn:Hdir.
    + apply (Hlast _ _ _ _ _ raw0 Hconstruct).
      intros init l Ha. unfold rewritten_address, raw_device_on in *.
      cbn [handler_IsDirectory] in Ha. rewrite Hdir in *.
      rewrite Hps0, last_app, removelast_last in Ha.
      injection Ha as Ha. apply app_inj_tail in Ha as [<- _]. done.
    + apply (Hlast _ _ _ _ _ (TSKHandler hb) Hconstruct).
      intros init l Ha. unfold rewritten_address, raw_device_on in *.
      cbn [handler_IsDirectory handler_pathspec] in Ha. rewrite Hdir in *.
      injection Ha as Ha. apply app_inj_tail in Ha as [<- _]. done.
    + destruct (constructed_rewrote_address (TSKHandler hb) component rt)
        as [address Ha]; [by rewrite Hconstruct|].
      unfold rewritten_address in Ha. cbn [handler_IsDirectory] in Ha.
      by rewrite Hdir in Ha.
Qed.

End Constructed_handler_properties.

(** ** Addresses handed out and taken back *)

Section Reopening.
Context `{Collaborators}.

Lemma child_component_fields (c : Path) (m : TSK_FS_META)
    (tsk_attribute : option TSK_FS_ATTR) (append_name : option string) :
  inode (child_component c m tsk_attribute append_name) = Some (meta_addr m) /\
  path_options (child_component c m tsk_attribute append_name)
  = path_options c /\
  pathtype (child_component c m tsk_attribute append_name) = pathtype c /\
  forall a, tsk_attribute = Some a ->
    ntfs_type (child_component c m tsk_attribute append_name) = attr_type a /\
    ntfs_id (child_component c m tsk_attribute append_name) = attr_id a.
Proof.
  unfold child_component.
  destruct (truthy append_name), tsk_attribute as [a|];
    [destruct (attr_name a)| |destruct (attr_name a)|];
    (split; [|split; [|split]]); try done; intros a' Ha; by simplify_eq.
Qed.

(** The address on a record that [Stat] or [ListFiles] hands out can be
    given back to the constructor.  For a handler whose address is the
    address of its raw device and one case-literal component, the last
    component of a record's address carries the inode of the record; with it
    the constructor, on the raw device, writes exactly the record's address,
    whatever the lookup then does, and never looks a path up; and when the
    lookup succeeds the new handler holds what [open_meta] returned for that
    inode, on the same raw device, and for the record of a stream it has the
    size of the attribute that [GetAttribute] finds for the type and id of
    that stream. *)
Theorem listed_address_reopens (h : TSKFile) (raw : VFSHandler) (c : Path)
    (f : File) (m : TSK_FS_META) (tsk_attribute : option TSK_FS_ATTR)
    (append_name : option string) (r : StatResponse) (rt : Runtime) :
  handler_IsDirectory raw = Ok false ->
  pathspec h = handler_pathspec raw ++ [c] ->
  path_options c = CASE_LITERAL ->
  info_meta f = Some m ->
  MakeStatResponse h f tsk_attribute append_name = Ok r ->
  exists child,
    Pathspec.last (st_pathspec r) = Ok child /\
    inode child = Some (st_ino r) /\
    st_ino r = meta_addr m /\
    rewritten_address raw child = Some (st_pathspec r) /\
    pathspec (TSKFile_construct (Some raw) child rt).1.2 = st_pathspec r /\
    (exists new,
       io_trace (TSKFile_construct (Some raw) child rt).2
       = io_trace rt ++ new /\
       forall p, EvOpen p ∉ new) /\
    forall h' rt',
      TSKFile_construct (Some raw) child rt = (Ok tt, h', rt') ->
      tsk_raw_device h' = Some raw /\
      exists session opened,
        filesystem h' = Some session /\
        fs_open_meta (fs session) (meta_addr m) = Ok opened /\
        fd h' = Some opened /\
        forall a found,
          tsk_attribute = Some a ->
          GetAttribute h' (attr_type a) (attr_id a) = Ok (Some found) ->
          size h' = attr_size found.
Proof.
  intros Hfile Hps Hliteral Hm Hresponse.
  rewrite (MakeStatResponse_snoc _ _ _ _ _ _ _ Hps Hm) in Hresponse.
  injection Hresponse as <-.
  set (child := child_component c m tsk_attribute append_name).
  destruct (child_component_fields c m tsk_attribute append_name)
    as (Hinode & Hoptions & _ & Hstream).
  fold child in Hinode, Hoptions, Hstream.
  assert (Hfield : HasField_inode child = true)
    by (unfold HasField_inode; by rewrite Hinode).
  assert (Haddress : rewritten_address raw child
                     = Some (handler_pathspec raw ++ [child])).
  { rewrite <- (set_path_options_same child) at 2.
    rewrite Hoptions, Hliteral. unfold rewritten_address.
    destruct raw as [hb|o]; by rewrite Hfile. }
  destruct (constructor_reaches_lookup raw child rt _ Haddress)
    as (init & l & Hsnoc & _ & _ & Hinit).
  destruct (construct_frame raw child rt _ init l Hinit Hsnoc)
    as (new & Htrace & Hevents & _ & _ & Hsame & _).
  exists child. cbn [st_pathspec st_ino response_of].
  split; [apply last_app|]. split; [exact Hinode|]. split; [reflexivity|].
  split; [exact Haddress|].
  split; [exact (eq_trans (Hsame Hfield) (eq_sym Hsnoc))|].
  split.
  - exists new. split; [exact Htrace|]. intros p Hin.
    destruct (constructor_event_lookup child (path l) p new Hevents Hin)
      as [_ Hno]. congruence.
  - intros h' rt' Hconstruct.
    destruct (construct_Ok raw child rt h' rt' Hconstruct)
      as (init' & l' & raw' & session & stamp & opened & sz & ps & _ & _
          & _ & Hraw & -> & _ & _ & Hino & _).
    destruct (Hino Hfield) as (Hopen & _ & Hsize).
    cbn [tsk_raw_device filesystem fd size].
    assert (Hon : raw_device_on raw = Some raw).
    { destruct raw as [hb|o]; [|reflexivity].
      cbn [handler_IsDirectory] in Hfile. unfold raw_device_on.
      by rewrite Hfile. }
    rewrite Hon in Hraw. injection Hraw as <-.
    split; [reflexivity|]. exists session, opened.
    split; [reflexivity|].
    split; [unfold get_inode in Hopen; by rewrite Hinode in Hopen|].
    split; [reflexivity|].
    intros a found Ha. destruct (Hstream a Ha) as [Htype Hid].
    rewrite Htype, Hid in Hsize.
    unfold GetAttribute, fd_of. cbn [fd rbind].
    intros [= Hfound]. by rewrite Hfound in Hsize.
Qed.

End Reopening.

(** ** Failures of the constructor *)

Section Constructor_failures.
Context `{Collaborators}.

(** A base for which the constructor writes no address is refused before
    anything is parsed or looked up: the constructor raises and leaves the
    cache, the clock and the trace as they were.  Without a base, and for a
    directory of another driver, it raises the [IOError] of the source; for a
    handler of this driver the exception is the one its own [IsDirectory] or
    its empty address raised. *)
Theorem refused_base_costs_nothing (component : Path) (rt : Runtime) :
  TSKFile_construct None component rt
  = (Raise (IOError "TSK driver must have a file base."), TSKFile_new, rt) /\
  forall base,
    rewritten_address base component = None ->
    exists e,
      (TSKFile_construct (Some base) component rt).1.1 = Raise e /\
      (TSKFile_construct (Some base) component rt).2 = rt /\
      fd (TSKFile_construct (Some base) component rt).1.2 = None /\
      filesystem (TSKFile_construct (Some base) component rt).1.2 = None /\
      match base with
      | FileHandler o =>
          o_IsDirectory o = true /\
          e = IOError "Unable to parse base using Sleuthkit."
      | TSKHandler hb =>
          IsDirectory hb = Raise e \/
          (IsDirectory hb = Ok true /\ pathspec hb = [] /\ e = IndexError)
      end.
Proof.
  split; [reflexivity|].
  intros [hb|o] Haddress; unfold rewritten_address in Haddress;
    cbn [handler_IsDirectory] in Haddress.
  - unfold TSKFile_construct, TSKFile_init, VFSHandler_init, chain_on_base.
    cbn [isinstance_TSKFile handler_IsDirectory handler_pathspec
         handler_tsk_raw_device].
    destruct (IsDirectory hb) as [[|]|e] eqn:Hdir; [|discriminate|].
    + destruct (Pathspec.last (pathspec hb)) as [c|e] eqn:Hlast;
        [discriminate|].
      apply last_raises in Hlast as [-> Hnil].
      exists IndexError. unfold Pathspec.Copy. rewrite Hnil.
      cbv beta iota delta [bind ret lift gets modify on_self
        set_pathspec set_base_fd set_tsk_raw_device TSKFile_new].
      cbn. repeat split. right. by repeat split.
    + exists e.
      cbv beta iota delta [bind ret lift gets modify on_self
        set_pathspec set_base_fd set_tsk_raw_device TSKFile_new].
      cbn. repeat split. by left.
  - destruct (o_IsDirectory o) eqn:Hdir; [|discriminate].
    exists (IOError "Unable to parse base using Sleuthkit.").
    unfold TSKFile_construct, TSKFile_init, VFSHandler_init, chain_on_base.
    cbn [isinstance_TSKFile handler_IsDirectory handler_pathspec].
    rewrite Hdir.
    cbv beta iota delta [bind ret lift gets modify on_self
      set_pathspec set_base_fd set_tsk_raw_device TSKFile_new].
    cbn. by repeat split.
Qed.

(** A device that cannot be parsed is parsed again at every attempt: when
    the cache has no live session for the raw device and [FS_Info] raises,
    the constructor raises the same exception after that one parse, looks
    nothing up, gives the handler no filesystem and no file, and leaves the
    cache without an entry for the device. *)
Theorem failed_parse_is_not_cached (base raw : VFSHandler) (component : Path)
    (rt : Runtime) (address : Pathspec.t) (e : exn)
    (cache' : gmap string (Z * CachedFilesystem)) :
  rewritten_address base component = Some address ->
  raw_device_on base = Some raw ->
  TimeBasedCache.Get max_age (clock rt) (fd_hash_of raw) (DEVICE_CACHE rt)
  = (Raise KeyError, cache') ->
  FS_Info (mkImg raw) (default 0 (handler_image_offset raw)) = Raise e ->
  exists l,
    Pathspec.last address = Ok l /\
    TSKFile_construct (Some base) component rt
    = (Raise e,
       mkTSKFile (Some base) address (Some raw) (path l) None None 0 0 "/",
       mkRuntime cache' (clock rt)
         (io_trace rt
          ++ [EvFS_Info (handler_path raw)
                (default 0 (handler_image_offset raw))])) /\
    cache' !! fd_hash_of raw = None.
Proof.
  intros Haddress Hraw Hget Hparse.
  destruct (constructor_reaches_lookup base component rt address Haddress)
    as (init & l & -> & _ & _ & Hinit).
  exists l. split; [apply last_app|].
  unfold TSKFile_construct. rewrite Hinit, Hraw.
  unfold after_rewrite, cached_filesystem, try_except, cache_Get,
    call_FS_Info.
  cbv beta iota delta [bind ret lift gets modify on_self on_runtime raise].
  cbn [self runtime tsk_raw_device clock DEVICE_CACHE].
  rewrite Hget. cbn [is_KeyError]. cbn [img_fd]. rewrite Hparse.
  split; [by destruct rt|].
  unfold TimeBasedCache.Get in Hget.
  destruct (DEVICE_CACHE rt !! fd_hash_of raw) as [[stamp v]|] eqn:Hlookup.
  - destruct (_ <? _); [discriminate|]. injection Hget as <-.
    apply lookup_delete_eq.
  - by injection Hget as <-.
Qed.

End Constructor_failures.

(** ** Open without a base *)

Section Open_without_base.
Context `{Collaborators}.

(** [Open] without a base never gives a usable handler.  For a component of
    this driver it resolves the raw device once and puts the raw device's
    component and the corrected component in front of the remaining address,
    every component with a path made canonical, whether or not the component
    has an inode; for any other component with a non-zero inode the
    constructor it calls raises, with the runtime unchanged. *)
Theorem Open_without_base_constructs_nothing (component : Path)
    (pathspec_arg : Pathspec.t) (rt : Runtime) :
  (pathtype component = TSK ->
   Open None component pathspec_arg rt
   = (AddressRewritten None
        (canonical_component
           (set_path (GetRawDevice (path component)).2 component))
        (canonical_component (GetRawDevice (path component)).1
         :: canonical_component
              (set_path (GetRawDevice (path component)).2 component)
         :: map canonical_component pathspec_arg),
      log (EvGetRawDevice (path component)) rt)) /\
  (forall res h rt',
     Open None component pathspec_arg rt = (ConstructedByInode res h, rt') ->
     pathtype component <> TSK /\
     get_inode component <> 0 /\
     res = Raise (IOError "TSK driver must have a file base.") /\
     rt' = rt) /\
  (pathtype component <> TSK ->
   get_inode component = 0 ->
   Open None component pathspec_arg rt
   = (GenericOpen None component pathspec_arg, rt)).
Proof.
  unfold Open. cbn [is_None andb].
  destruct (GetRawDevice (path component)) as [raw_pathspec corrected].
  cbn [fst snd].
  split; [by intros ->|]. split.
  - intros res h rt'. destruct (pathtype component); cbn [is_TSK];
      try discriminate.
    all: destruct (Z.eqb_spec (get_inode component) 0); cbn [negb];
      try discriminate.
    all: by intros [= <- <- <-].
  - intros Htype ->. by destruct (pathtype component).
Qed.

End Open_without_base.

(** ** The key of the device cache *)

Lemma append_colon_inj (p a b : string) :
  p +:+ ":" +:+ a = p +:+ ":" +:+ b -> a = b.
Proof.
  induction p as [|ch p IH]; cbn; [intros [= Heq]; exact Heq|].
  intros [= Heq]. by apply IH.
Qed.

Lemma append_colon_longer (p a : string) : p <> p +:+ ":" +:+ a.
Proof.
  induction p as [|ch p IH]; cbn; [discriminate|].
  intros [= Heq]. by apply IH.
Qed.

(** The cache key keeps the image offsets of one device apart, and apart
    from the device opened without an offset: two raw devices with the same
    path have the same key exactly when they have the same [image_offset], or
    both have none.  It does not keep devices apart: a path that ends in a
    colon and a number has the key of the shorter path at that offset. *)
Theorem cache_key_separates_offsets :
  (forall raw1 raw2,
     handler_path raw1 = handler_path raw2 ->
     fd_hash_of raw1 = fd_hash_of raw2
     <-> handler_image_offset raw1 = handler_image_offset raw2) /\
  (forall p pathspec1 pathspec2 (image_offset : Z),
     fd_hash_of
       (FileHandler (mkOther pathspec1 (p +:+ ":" +:+ pretty image_offset)
                       None false))
     = fd_hash_of
         (FileHandler (mkOther pathspec2 p (Some image_offset) false))).
Proof.
  split; [|reflexivity].
  intros raw1 raw2 Hpath. unfold fd_hash_of. rewrite Hpath.
  destruct (handler_image_offset raw1) as [o1|],
    (handler_image_offset raw2) as [o2|]; split; try done.
  - intros Hkey%append_colon_inj. f_equal. by apply (inj pretty).
  - by intros [= ->].
  - intros Hkey. symmetry in Hkey. by apply append_colon_longer in Hkey.
  - intros Hkey. by apply append_colon_longer in Hkey.
Qed.

(** ** The further properties, on the example image *)

(** The stream [secret] of [note.txt] is found behind two attributes that do
    not match. *)
Lemma GetAttribute_witness :
  fd Further.note_handle = Some Example.note /\
  GetAttribute Further.note_handle pytsk3.TSK_FS_ATTR_TYPE_NTFS_DATA 2
  = Ok (Some Example.secret_attr).
Proof.
  split; [reflexivity|].
  destruct (GetAttribute_returns_first_match Further.note_handle Example.note
              pytsk3.TSK_FS_ATTR_TYPE_NTFS_DATA 2 eq_refl)
    as (_ & Hfirst & _).
  apply Hfirst.
  exists [Example.default_attr 20; mkAttr 0x30 3 (Some "name") 60], [].
  split; [reflexivity|]. split; [reflexivity|]. split; [reflexivity|].
  intros b Hb. apply list_elem_of_In in Hb.
  destruct Hb as [<-|[<-|[]]]; [right|left]; discriminate.
Defined.

(** [ListNames] on [/docs] gives the six names, the hidden ones and the
    entry without metadata included. *)
Lemma ListNames_witness :
  fd Handles.docs_handle = Some Example.docs /\
  run_ListNames Handles.docs_handle Handles.runtime1
  = (["."; ".."; "$OrphanFiles"; "report.txt"; "lost.txt"; "note.txt"],
     Ok tt, log EvAsDirectory Handles.runtime1).
Proof.
  split; [reflexivity|].
  destruct (ListNames_yields_every_name Handles.docs_handle Example.docs
              Handles.runtime1 eq_refl) as (Hall & _ & _).
  exact (Hall Example.docs_children
           [mkName "." pytsk3.TSK_FS_NAME_TYPE_DIR;
            mkName ".." pytsk3.TSK_FS_NAME_TYPE_DIR;
            mkName "$OrphanFiles" pytsk3.TSK_FS_NAME_TYPE_DIR;
            mkName "report.txt" pytsk3.TSK_FS_NAME_TYPE_REG;
            mkName "lost.txt" pytsk3.TSK_FS_NAME_TYPE_REG;
            mkName "note.txt" pytsk3.TSK_FS_NAME_TYPE_REG]
           eq_refl eq_refl).
Defined.


(** [report.txt] as [ListFiles] reports it below [/docs] and as [Stat]
    reports it on the handle opened by inode. *)
Lemma responses_agree_witness :
  @MakeStatResponse Example.collaborators Handles.docs_handle
    Example.report_named None (Some "report.txt")
  = Ok Handles.report_stat /\
  exists r,
    @Stat Example.collaborators Handles.report_inode_handle = Ok r /\
    st_size Handles.report_stat = st_size r /\
    st_mtime Handles.report_stat = st_mtime r /\
    st_mode Handles.report_stat = Z.lor (st_mode r) stat.S_IFREG.
Proof.
  assert (H1 : @MakeStatResponse Example.collaborators Handles.docs_handle
                 Example.report_named None (Some "report.txt")
               = Ok Handles.report_stat) by (vm_compute; reflexivity).
  destruct (@MakeStatResponse_total Example.collaborators
              Handles.report_inode_handle Example.report_by_inode
              Example.report_meta None None eq_refl) as [r Hr];
    [discriminate|].
  split; [exact H1|]. exists r. split; [exact Hr|].
  destruct (@responses_agree_on_shared_metadata Example.collaborators
              Handles.docs_handle Handles.report_inode_handle
              Example.report_named Example.report_by_inode Example.report_meta
              None None (Some "report.txt") None Handles.report_stat r
              eq_refl eq_refl H1 Hr) as (_ & Hfields & Hmode).
  split; [exact (Hfields f_size ltac:(discriminate))|].
  split; [exact (Hfields f_mtime ltac:(discriminate))|].
  exact (Hmode eq_refl).
Defined.

(** Three reads of 100, 200 and 300 bytes on [report.txt] give its 512
    bytes. *)
Lemma reads_in_a_row_witness :
  IsFile Handles.report_handle = Ok true /\
  exists rt',
    Read_each [100; 200; 300]
      (mkState Handles.report_handle Handles.runtime1)
    = (Ok (Example.content 512),
       mkState (set_offset 512 Handles.report_handle) rt').
Proof.
  split; [reflexivity|].
  destruct (reads_in_a_row_concatenate Handles.report_handle
              Example.report_named
              (mkPath TSK "/docs/report.txt" CASE_LITERAL (Some 1234) 0 0)
              (Example.content 512) [100; 200; 300] Handles.runtime1
              eq_refl eq_refl eq_refl (fun _ _ => eq_refl))
    as [rt' Hreads].
  - reflexivity || (cbn; lia).
  - vm_compute. discriminate.
  - repeat constructor; lia.
  - exists rt'. exact Hreads.
Defined.

(** [/docs], opened by path on the raw device. *)
Lemma open_by_path_witness :
  HasField_inode (Example.tsk_component "/docs" None) = false /\
  @TSKFile_construct Example.collaborators (Some Example.sda1)
     (Example.tsk_component "/docs" None) Example.runtime0
  = (Ok tt, Handles.docs_handle, Handles.runtime1) /\
  exists r,
    @Stat Example.collaborators Handles.docs_handle = Ok r /\
    st_pathspec r = pathspec Handles.docs_handle /\
    IsDirectory Handles.docs_handle = Ok true.
Proof.
  assert (Hc : @TSKFile_construct Example.collaborators (Some Example.sda1)
                 (Example.tsk_component "/docs" None) Example.runtime0
               = (Ok tt, Handles.docs_handle, Handles.runtime1))
    by (vm_compute; reflexivity).
  split; [reflexivity|]. split; [exact Hc|].
  destruct (@open_by_path_then_Stat Example.collaborators Example.sda1
              (Example.tsk_component "/docs" None) Example.runtime0
              Handles.docs_handle Handles.runtime1 eq_refl Hc)
    as (session & opened & m & l & r & _ & _ & _ & _ & _ & _ & _ & _ & _ & _
        & _ & _ & Hstat & Haddress & _).
  exists r. split; [exact Hstat|]. split; [exact Haddress|reflexivity].
Defined.

(** The unnamed data stream of inode 1234, opened by inode below [/docs]:
    the size is that of the attribute. *)
Lemma open_by_inode_witness :
  HasField_inode Further.report_stream_component = true /\
  (@TSKFile_construct Example.collaborators
     (Some (TSKHandler Handles.docs_handle)) Further.report_stream_component
     Handles.runtime1).1.1 = Ok tt /\
  size (@TSKFile_construct Example.collaborators
          (Some (TSKHandler Handles.docs_handle))
          Further.report_stream_component Handles.runtime1).1.2
  = attr_size (Example.default_attr 512).
Proof.
  split; [reflexivity|]. split; [vm_compute; reflexivity|].
  destruct (@open_by_inode_resolves_size Example.collaborators
              (TSKHandler Handles.docs_handle) Further.report_stream_component
              Handles.runtime1 _ _ eq_refl
              ltac:(vm_compute; reflexivity))
    as (session & opened & _ & _ & _ & _ & _ & Hattr & _).
  apply Hattr. vm_compute. reflexivity.
Defined.

(** [report.txt], constructed below [/docs], itself constructed on the raw
    device: its raw device is [/dev/sda1], not the directory. *)
Lemma constructed_handler_witness :
  @constructed Example.collaborators Handles.report_handle /\
  exists c,
    tsk_raw_device Handles.report_handle = Some Example.sda1 /\
    pathspec Handles.report_handle = handler_pathspec Example.sda1 ++ [c].
Proof.
  assert (Hc : @constructed Example.collaborators Handles.report_handle).
  { apply (@constructed_on_handler Example.collaborators Handles.docs_handle
             (Example.tsk_component "report.txt" None) Handles.runtime1
             Handles.report_handle
             (log (EvOpen "/docs/report.txt") Handles.runtime1));
      [|vm_compute; reflexivity].
    apply (@constructed_on_file Example.collaborators
             (mkOther [mkPath OS "/dev/sda1" CASE_INSENSITIVE None 0 0]
                "/dev/sda1" None false)
             (Example.tsk_component "/docs" None) Example.runtime0
             Handles.docs_handle Handles.runtime1).
    vm_compute. reflexivity. }
  split; [exact Hc|].
  destruct (@constructed_handler_is_rooted Example.collaborators
              Handles.report_handle Hc)
    as (raw & c & _ & _ & Hraw & _ & Haddress & _).
  injection Hraw as <-. exists c. split; [reflexivity|exact Haddress].
Defined.

(** The address [ListFiles] reports for [report.txt] below [/docs], given
    back to the constructor on [/dev/sda1]. *)
Lemma listed_address_witness :
  handler_IsDirectory Example.sda1 = Ok false /\
  @MakeStatResponse Example.collaborators Handles.docs_handle
    Example.report_named None (Some "report.txt")
  = Ok Handles.report_stat /\
  exists child,
    Pathspec.last (st_pathspec Handles.report_stat) = Ok child /\
    inode child = Some 1234 /\
    @rewritten_address Example.collaborators Example.sda1 child
    = Some (st_pathspec Handles.report_stat) /\
    pathspec (@TSKFile_construct Example.collaborators (Some Example.sda1)
                child Handles.runtime1).1.2
    = st_pathspec Handles.report_stat.
Proof.
  assert (H1 : @MakeStatResponse Example.collaborators Handles.docs_handle
                 Example.report_named None (Some "report.txt")
               = Ok Handles.report_stat) by (vm_compute; reflexivity).
  split; [reflexivity|]. split; [exact H1|].
  destruct (@listed_address_reopens Example.collaborators Handles.docs_handle
              Example.sda1 (mkPath TSK "/docs" CASE_LITERAL (Some 11) 0 0)
              Example.report_named Example.report_meta None
              (Some "report.txt") Handles.report_stat Handles.runtime1
              eq_refl eq_refl eq_refl eq_refl H1)
    as (child & Hlast & Hinode & _ & Haddress & Hps & _).
  exists child. split; [exact Hlast|]. split; [exact Hinode|].
  split; [exact Haddress|exact Hps].
Defined.

(** On a device the parser cannot read, the open of [/docs] fails after one
    parse and the cache stays empty. *)
Lemma failed_parse_witness :
  @FS_Info Further.unreadable (mkImg Example.sda1) 0
  = Raise (IOError "Cannot determine file system type") /\
  @TSKFile_construct Further.unreadable (Some Example.sda1)
     (Example.tsk_component "/docs" None) Example.runtime0
  = (Raise (IOError "Cannot determine file system type"),
     mkTSKFile (Some Example.sda1)
       [Handles.sda1_component; mkPath TSK "/docs" CASE_LITERAL None 0 0]
       (Some Example.sda1) "/docs" None None 0 0 "/",
     mkRuntime ∅ 0 [EvFS_Info "/dev/sda1" 0]).
Proof.
  split; [reflexivity|].
  destruct (@failed_parse_is_not_cached Further.unreadable Example.sda1
              Example.sda1 (Example.tsk_component "/docs" None)
              Example.runtime0
              [Handles.sda1_component;
               mkPath TSK "/docs" CASE_LITERAL None 0 0]
              (IOError "Cannot determine file system type") ∅
              eq_refl eq_refl eq_refl eq_refl)
    as (l & Hlast & Hconstruct & _).
  injection Hlast as <-. exact Hconstruct.
Defined.
